(** * Djrill: the Mandrill mail backend and its message classes

    A shallow embedding of [djrill/mail/__init__.py] (the message classes)
    and [djrill/mail/backends.py] (the backend), with the properties of
    the message-to-payload translation and of the dispatch protocol.

    Python objects are records whose optional attributes are [option]s
    (an attribute that was never assigned is [None], and reading it raises
    [AttributeError]); Python dictionaries are [gmap]s keyed by strings;
    exceptions are an error monad; the HTTP transport is a log of the
    exchanges made so far, threaded through the backend's methods. *)

From Stdlib Require Import ZArith Ascii String List Bool.
From stdpp Require Import base option strings list gmap fin_maps.

#[local] Set Warnings "-register-all".
Local Open Scope string_scope.
Local Open Scope Z_scope.

(** ** Python values *)

(** The values a payload can hold ([json.dumps] accepts exactly these). *)
Inductive pyval : Type :=
| PNone
| PBool (b : bool)
| PInt (z : Z)
| PStr (s : string)
| PList (l : list pyval)
| PDict (d : gmap string pyval).

(** ** Exceptions *)

Inductive exn : Type :=
| ImproperlyConfigured (msg : string)
| RuntimeError (msg : string)
| AttributeError (attr : string)
| TypeError (msg : string)
| IndexError (msg : string)
| KeyError (key : string)
| ValueError (msg : string)
| DjrillBackendHTTPError (status_code : Z) (message : pyval).

(** The one configuration-error class of the code base is Django's
    [ImproperlyConfigured]. *)
Definition is_configuration_error (e : exn) : bool :=
  match e with ImproperlyConfigured _ => true | _ => false end.

(** Computations that may raise. *)
Definition Exc (A : Type) : Type := exn + A.

Definition ok {A} (a : A) : Exc A := inr a.
Definition raise {A} (e : exn) : Exc A := inl e.

Definition ebind {A B} (c : Exc A) (k : A -> Exc B) : Exc B :=
  match c with
  | inl e => inl e
  | inr a => k a
  end.

Declare Scope exc_scope.
Delimit Scope exc_scope with exc.
Notation "x <- c ;; k" := (ebind c (fun x => k))
  (at level 100, c at next level, right associativity) : exc_scope.

(** ** Strings the way Python sees them *)

(** [s.startswith(p)] *)
Definition startswith (s p : string) : bool := String.prefix p s.

(** [len(s)] *)
Definition len (s : string) : nat := String.length s.

(** [not x] for an optional string: [None] and the empty string are falsy. *)
Definition falsy_str (o : option string) : bool :=
  match o with
  | None => true
  | Some s => (len s =? 0)%nat
  end.

(** A read of an attribute that may never have been assigned. *)
Definition getattr {A} (a : option A) (name : string) : Exc A :=
  match a with
  | Some v => ok v
  | None => raise (AttributeError name)
  end.

(** ** Messages: [djrill/mail/__init__.py] *)

Module Mail.

(** The message object.  The first group of fields belongs to the host
    framework's [EmailMessage]; [recipients] is the value its
    [recipients()] method returns.  [alternatives] exists on
    [EmailMultiAlternatives] only.  The second group is what the classes
    of this module assign; [global_merge_vars] is assigned by no
    constructor, only by the caller. *)
Record EmailMessage : Type := mkEmailMessage {
  subject : string;
  body : string;
  from_email : string;
  recipients : list string;
  encoding : option string;
  extra_headers : gmap string string;
  content_subtype : string;
  alternatives : option (list (string * string));
  from_name : option (option string);
  tags : option (list string);
  track_opens : option bool;
  track_clicks : option bool;
  global_merge_vars : option (option (gmap string pyval));
  template_name : option string;
  template_content : option (list pyval)
}.

(** *** [DjrillMessageMixin._set_mandrill_tags] *)

Definition reserved_tag_msg : string :=
  "Tags starting with an underscore are reserved for internal use and will cause errors with Mandill's API".

(** The [for] loop, with [tag_list] as the accumulator it appends to. *)
Fixpoint _set_mandrill_tags_loop (tags tag_list : list string) : Exc (list string) :=
  match tags with
  | [] => ok tag_list
  | tag :: rest =>
      if (len tag <=? 50)%nat && negb (startswith tag "_") then
        _set_mandrill_tags_loop rest (tag_list ++ [tag])%list
      else if startswith tag "_" then
        raise (ImproperlyConfigured reserved_tag_msg)
      else
        _set_mandrill_tags_loop rest tag_list
  end.

Definition _set_mandrill_tags (tags : list string) : Exc (list string) :=
  _set_mandrill_tags_loop tags [].

(** *** [DjrillMessageMixin.__init__]

    [self] is the object as the host constructor
    (the [super().__init__] call) left it. *)
Definition DjrillMessageMixin_init (self : EmailMessage)
    (from_name : option string) (tags : option (list string))
    (track_opens track_clicks : bool) : Exc EmailMessage :=
  (tag_list <- _set_mandrill_tags (default [] tags) ;;
   ok {| subject := subject self;
         body := body self;
         from_email := from_email self;
         recipients := recipients self;
         encoding := encoding self;
         extra_headers := extra_headers self;
         content_subtype := content_subtype self;
         alternatives := alternatives self;
         from_name := Some from_name;
         tags := Some tag_list;
         track_opens := Some track_opens;
         track_clicks := Some track_clicks;
         global_merge_vars := global_merge_vars self;
         template_name := template_name self;
         template_content := template_content self |})%exc.

(** The class attribute [content_subtype] of a subclass. *)
Definition with_content_subtype (self : EmailMessage) (st : string) : EmailMessage :=
  {| subject := subject self;
     body := body self;
     from_email := from_email self;
     recipients := recipients self;
     encoding := encoding self;
     extra_headers := extra_headers self;
     content_subtype := st;
     alternatives := alternatives self;
     from_name := from_name self;
     tags := tags self;
     track_opens := track_opens self;
     track_clicks := track_clicks self;
     global_merge_vars := global_merge_vars self;
     template_name := template_name self;
     template_content := template_content self |}.

(** *** [DjrillMessage] *)
Definition DjrillMessage_init (self : EmailMessage)
    (from_name : option string) (tags : option (list string))
    (track_opens track_clicks : bool) : Exc EmailMessage :=
  DjrillMessageMixin_init (with_content_subtype self "mandrill")
    from_name tags track_opens track_clicks.

(** *** [DjrillTemplateMessage.__init__] *)
Definition DjrillTemplateMessage_init (self : EmailMessage)
    (template_name : option string) (template_content : option (list pyval))
    (from_name : option string) (tags : option (list string))
    (track_opens track_clicks : bool) : Exc EmailMessage :=
  (self <- DjrillMessageMixin_init (with_content_subtype self "mandrill.template")
             from_name tags track_opens track_clicks ;;
   if falsy_str template_name then
     raise (RuntimeError "Template name is required")
   else
     ok {| subject := subject self;
           body := body self;
           from_email := from_email self;
           recipients := recipients self;
           encoding := encoding self;
           extra_headers := extra_headers self;
           content_subtype := content_subtype self;
           alternatives := alternatives self;
           from_name := Mail.from_name self;
           tags := Mail.tags self;
           track_opens := Mail.track_opens self;
           track_clicks := Mail.track_clicks self;
           global_merge_vars := global_merge_vars self;
           template_name := template_name;
           template_content := Some (default [] template_content) |})%exc.

(** A caller's [message.global_merge_vars = v]. *)
Definition set_global_merge_vars (self : EmailMessage)
    (v : option (gmap string pyval)) : EmailMessage :=
  {| subject := subject self;
     body := body self;
     from_email := from_email self;
     recipients := recipients self;
     encoding := encoding self;
     extra_headers := extra_headers self;
     content_subtype := content_subtype self;
     alternatives := alternatives self;
     from_name := from_name self;
     tags := tags self;
     track_opens := track_opens self;
     track_clicks := track_clicks self;
     global_merge_vars := Some v;
     template_name := template_name self;
     template_content := template_content self |}.

(** The host objects: what [EmailMessage(...)] and
    [EmailMultiAlternatives(...)] of the framework leave in [self]. *)
Definition host_EmailMessage (subject body from_email : string)
    (to : list string) (headers : gmap string string) : EmailMessage :=
  {| subject := subject;
     body := body;
     from_email := from_email;
     recipients := to;
     encoding := None;
     extra_headers := headers;
     content_subtype := "plain";
     alternatives := None;
     from_name := None;
     tags := None;
     track_opens := None;
     track_clicks := None;
     global_merge_vars := None;
     template_name := None;
     template_content := None |}.

Definition host_EmailMultiAlternatives (subject body from_email : string)
    (to : list string) (headers : gmap string string)
    (alts : list (string * string)) : EmailMessage :=
  {| subject := subject;
     body := body;
     from_email := from_email;
     recipients := to;
     encoding := None;
     extra_headers := headers;
     content_subtype := "plain";
     alternatives := Some alts;
     from_name := None;
     tags := None;
     track_opens := None;
     track_clicks := None;
     global_merge_vars := None;
     template_name := None;
     template_content := None |}.

End Mail.

(** ** The backend: [djrill/mail/backends.py] *)

Import Mail.

(** [s[-1]]; the empty string has no last character. *)
Fixpoint last_char (s : string) : option ascii :=
  match s with
  | EmptyString => None
  | String c rest =>
      match rest with
      | EmptyString => Some c
      | String _ _ => last_char rest
      end
  end.

Definition slash : ascii := "/"%char.

Definition ends_with_slash (s : string) : bool :=
  match last_char s with
  | Some c => if Ascii.eqb c slash then true else false
  | None => false
  end.

(** The two settings the backend reads from the framework's [settings]
    object; [None] is a setting that is not defined. *)
Record Settings : Type := mkSettings {
  MANDRILL_API_KEY : option string;
  MANDRILL_API_URL : option string
}.

(** The attributes of a [DjrillBackend] instance. *)
Record DjrillBackend : Type := mkDjrillBackend {
  fail_silently : bool;
  api_key : string;
  api_url : string
}.

(** What the transport hands back. *)
Record Response : Type := mkResponse {
  status_code : Z;
  content : string
}.

(** One call of [requests.post] and its answer. *)
Record Exchange : Type := mkExchange {
  ex_url : string;
  ex_data : string;
  ex_response : Response
}.

(** Methods that talk to the transport: an error monad over the log of
    exchanges. *)
Definition IO (A : Type) : Type := list Exchange -> Exc A * list Exchange.

Definition ret {A} (a : A) : IO A := fun log => (ok a, log).
Definition throw {A} (e : exn) : IO A := fun log => (raise e, log).
Definition lift {A} (c : Exc A) : IO A := fun log => (c, log).

Definition iobind {A B} (c : IO A) (k : A -> IO B) : IO B :=
  fun log =>
    match c log with
    | (inl e, log') => (inl e, log')
    | (inr a, log') => k a log'
    end.

Declare Scope io_scope.
Delimit Scope io_scope with io.
Notation "x <- c ;; k" := (iobind c (fun x => k))
  (at level 100, c at next level, right associativity) : io_scope.

(** [DjrillBackend.api_methods] *)
Definition api_methods : gmap string string :=
  <["send" := "messages/send.json"]>
    (<["send-template" := "messages/send-template.json"]> ∅).

(** [d[k]] on a dictionary of strings. *)
Definition getitem_str (d : gmap string string) (k : string) : Exc string :=
  match d !! k with
  | Some v => ok v
  | None => raise (KeyError k)
  end.

(** [v[k]] on a Python value. *)
Definition getitem (v : pyval) (k : string) : Exc pyval :=
  match v with
  | PDict d =>
      match d !! k with
      | Some x => ok x
      | None => raise (KeyError k)
      end
  | _ => raise (TypeError "object is not subscriptable")
  end.

(** [payload['message']], as the dictionary it has to be for [update]
    and item assignment. *)
Definition message_of (payload : gmap string pyval) : Exc (gmap string pyval) :=
  (v <- getitem (PDict payload) "message" ;;
   match v with
   | PDict m => ok m
   | _ => raise (TypeError "object does not support item assignment")
   end)%exc.

(** [d.update(new)]: the keys of [new] win. *)
Definition dict_update (d new : gmap string pyval) : gmap string pyval := new ∪ d.

(** The payload after its message sub-mapping was mutated in place. *)
Definition set_message (payload m : gmap string pyval) : gmap string pyval :=
  <["message" := PDict m]> payload.

(** [payload['message'].update(new)] and [payload['message'][k] = v], for
    a [new] whose evaluation cannot fail. *)
Definition update_message (payload new : gmap string pyval) : Exc (gmap string pyval) :=
  (m <- message_of payload ;;
   ok (set_message payload (dict_update m new)))%exc.

(** [k.startswith('X-') or k == 'Reply-To'] *)
Definition accepted_header (k : string) : bool :=
  startswith k "X-" || String.eqb k "Reply-To".

Definition accepted_headers_of (headers : gmap string string) : gmap string pyval :=
  PStr <$> filter (fun kv => accepted_header kv.1 = true) headers.

(** Truth value of a dictionary and of a list. *)
Definition dict_nonempty {A} (d : gmap string A) : bool :=
  match map_to_list d with [] => false | _ :: _ => true end.

Definition list_nonempty {A} (l : list A) : bool :=
  match l with [] => false | _ :: _ => true end.

Definition multiple_alternatives_msg : string :=
  "Mandrill only accepts plain text and html emails. Please check the alternatives you have attached to your message.".

(** A [{'name': key, 'content': value}] entry. *)
Definition merge_var (kv : string * pyval) : pyval :=
  PDict (<["name" := PStr kv.1]> (<["content" := kv.2]> ∅)).

(** A [{"email": e, "name": n}] entry. *)
Definition recipient_entry (ne : string * string) : pyval :=
  PDict (<["email" := PStr ne.2]> (<["name" := PStr ne.1]> ∅)).

(** [BaseEmailBackend.__init__] of the host framework stores its
    [fail_silently] argument, [False] when it gets none. *)
Definition BaseEmailBackend_init (fail_silently : option bool) : bool :=
  default false fail_silently.

Definition no_api_key_msg : string :=
  "You have not set your Mandrill api key in the settings.py file.".
Definition no_api_url_msg : string :=
  "You have not added the Mandrill api url to your settings.py".

(** *** [DjrillBackend.__init__]

    The [fail_silently] argument is bound by the method's own parameter
    and is not among the keyword arguments passed on to the base class.
    [self.api_url[-1]] is evaluated before either setting is checked. *)
Definition DjrillBackend_init (settings : Settings) (fail_silently : bool)
    : Exc DjrillBackend :=
  let self_fail_silently := BaseEmailBackend_init None in
  let self_api_key := MANDRILL_API_KEY settings in
  let self_api_url := MANDRILL_API_URL settings in
  (self_api_url <-
     match self_api_url with
     | None => raise (TypeError "'NoneType' object is not subscriptable")
     | Some u =>
         match last_char u with
         | None => raise (IndexError "string index out of range")
         | Some c => if negb (Ascii.eqb c slash) then ok (u ++ "/") else ok u
         end
     end ;;
   if falsy_str self_api_key then
     raise (ImproperlyConfigured no_api_key_msg)
   else if (len self_api_url =? 0)%nat then
     raise (ImproperlyConfigured no_api_url_msg)
   else
     ok {| fail_silently := self_fail_silently;
           api_key := default "" self_api_key;
           api_url := self_api_url |})%exc.

(** *** [DjrillBackend._get_target] *)
Definition _get_target (settings : Settings) (self : DjrillBackend)
    (message : EmailMessage) : Exc string :=
  let method_name :=
    if String.eqb (content_subtype message) "mandrill.template"
    then "send-template" else "send" in
  (base <- getattr (MANDRILL_API_URL settings) "MANDRILL_API_URL" ;;
   suffix <- getitem_str api_methods method_name ;;
   ok (base ++ suffix))%exc.

(** *** [DjrillBackend._update_mandrill_payload]

    The payload dictionary is updated in place; the updated payload is
    the result.  In the second [update] the receiver [payload['message']]
    is evaluated before the attributes of the argument are read. *)
Definition _update_mandrill_payload (payload : gmap string pyval)
    (message : EmailMessage) : Exc (gmap string pyval) :=
  let accepted_headers := accepted_headers_of (extra_headers message) in
  (payload <-
     (if dict_nonempty (extra_headers message)
      then update_message payload (<["headers" := PDict accepted_headers]> ∅)
      else ok payload) ;;
   receiver <- message_of payload ;;
   tags <- getattr (tags message) "tags" ;;
   track_opens <- getattr (track_opens message) "track_opens" ;;
   track_clicks <- getattr (track_clicks message) "track_clicks" ;;
   let payload :=
     set_message payload
       (dict_update receiver
          (<["tags" := PList (PStr <$> tags)]>
             (<["track_opens" := PBool track_opens]>
                (<["track_clicks" := PBool track_clicks]>
                   (<["headers" := PDict accepted_headers]> ∅))))) in
   gmv <- getattr (global_merge_vars message) "global_merge_vars" ;;
   payload <-
     match gmv with
     | Some vars =>
         if dict_nonempty vars then
           update_message payload
             (<["global_merge_vars" := PList (merge_var <$> map_to_list vars)]> ∅)
         else ok payload
     | None => ok payload
     end ;;
   payload <-
     match alternatives message with
     | Some (alt :: more) =>
         if (1 <? length (alt :: more))%nat then
           raise (ImproperlyConfigured multiple_alternatives_msg)
         else
           update_message payload (<["html" := PStr alt.1]> ∅)
     | _ => ok payload
     end ;;
   if String.eqb (content_subtype message) "mandrill.template" then
     template_name <- getattr (template_name message) "template_name" ;;
     template_content <- getattr (template_content message) "template_content" ;;
     ok (dict_update payload
           (<["template_name" := PStr template_name]>
              (<["template_content" := PList template_content]> ∅)))
   else ok payload)%exc.

(** *** Vocabulary of the properties *)

(** A tag with the reserved prefix, and a tag within the length limit. *)
Definition reserved_tag (tag : string) : bool := startswith tag "_".
Definition short_tag (tag : string) : bool := (len tag <=? 50)%nat.

Definition is_some {A} (a : option A) : bool :=
  match a with Some _ => true | None => false end.

(** A provider-extended message: its content subtype sends it through
    the extension merge, and it carries the attributes the constructors
    of [Mail] assign. *)
Definition provider_extended (m : EmailMessage) : bool :=
  startswith (content_subtype m) "mandrill"
  && is_some (tags m) && is_some (track_opens m) && is_some (track_clicks m)
  && (if String.eqb (content_subtype m) "mandrill.template"
      then is_some (template_name m) && is_some (template_content m)
      else true).

(** The fixed suffix of the endpoint of a message's kind. *)
Definition target_suffix (m : EmailMessage) : string :=
  if String.eqb (content_subtype m) "mandrill.template"
  then "messages/send-template.json" else "messages/send.json".

(** The number of exchanges the provider confirmed with a 200. *)
Definition confirmed (exchanges : list Exchange) : Z :=
  Z.of_nat (length (List.filter
                      (fun ex => status_code (ex_response ex) =? 200) exchanges)).

(** A tag the constructor keeps. *)
Definition valid_tag (tag : string) : bool :=
  short_tag tag && negb (reserved_tag tag).

(** The messages of a batch that have a recipient. *)
Definition with_recipients (msgs : list EmailMessage) : nat :=
  length (List.filter (fun m => list_nonempty (recipients m)) msgs).

(** The entries of the [to] list of a payload. *)
Definition to_entries (sanitize_address : string -> option string -> string)
    (parseaddr : string -> string * string) (m : EmailMessage) : list pyval :=
  (fun addr => recipient_entry (parseaddr (sanitize_address addr (encoding m))))
    <$> recipients m.

(** *** Sample data

    A configuration, a few host functions, servers and messages on which
    the properties below are exercised. *)

Definition sample_settings : Settings :=
  {| MANDRILL_API_KEY := Some "secret-key";
     MANDRILL_API_URL := Some "http://mandrillapp.com/api/1.0/" |}.

(** The same configuration, with the URL written without its final
    slash. *)
Definition sample_settings_noslash : Settings :=
  {| MANDRILL_API_KEY := Some "secret-key";
     MANDRILL_API_URL := Some "http://mandrillapp.com/api/1.0" |}.

Definition sample_backend (fail_silently : bool) : DjrillBackend :=
  {| fail_silently := fail_silently;
     api_key := "secret-key";
     api_url := "http://mandrillapp.com/api/1.0/" |}.

Definition sample_sanitize_address (addr : string) (encoding : option string) : string :=
  addr.

(** An address parser that knows the one sender with a display name the
    samples use, and takes any other string for a bare address. *)
Definition sample_parseaddr (addr : string) : string * string :=
  if String.eqb addr "Jane Doe <jane@example.com>"
  then ("Jane Doe", "jane@example.com")
  else ("", addr).

Definition sample_json_dumps (payload : gmap string pyval) : string := "{...}".

(** A decoder for the one error body the sample server sends. *)
Definition sample_json_loads (body : string) : Exc pyval :=
  if String.eqb body "{message: Invalid API key}"
  then ok (PDict (<["message" := PStr "Invalid API key"]> ∅))
  else raise (ValueError "No JSON object could be decoded").

Definition server_accepts (log : list Exchange) (url data : string) : Response :=
  {| status_code := 200; content := "[]" |}.

Definition server_rejects (log : list Exchange) (url data : string) : Response :=
  {| status_code := 500; content := "{message: Invalid API key}" |}.

Definition sample_plain : EmailMessage :=
  host_EmailMessage "Subject" "Body" "Jane Doe <jane@example.com>"
    ["to@example.com"] ∅.

Definition sample_no_recipients : EmailMessage :=
  host_EmailMessage "Subject" "Body" "Jane Doe <jane@example.com>" [] ∅.

Definition sample_html : string * string := ("<p>Body</p>", "text/html").
Definition sample_pdf : string * string := ("%PDF", "application/pdf").

(** The host object of a message with the given recipients and
    alternatives. *)
Definition sample_host (to : list string) (alts : list (string * string)) : EmailMessage :=
  host_EmailMultiAlternatives "Subject" "Body" "Jane Doe <jane@example.com>"
    to ∅ alts.

(** [DjrillMessage(...)] with the default keyword arguments, as the
    constructor leaves it. *)
Definition sample_djrill (to : list string) (alts : list (string * string)) : EmailMessage :=
  {| subject := "Subject";
     body := "Body";
     from_email := "Jane Doe <jane@example.com>";
     recipients := to;
     encoding := None;
     extra_headers := ∅;
     content_subtype := "mandrill";
     alternatives := Some alts;
     from_name := Some None;
     tags := Some [];
     track_opens := Some true;
     track_clicks := Some true;
     global_merge_vars := None;
     template_name := None;
     template_content := None |}.

Definition sample_merge_vars : gmap string pyval :=
  <["FNAME" := PStr "Jane"]> ∅.

(** The same message once the caller has assigned its merge variables. *)
Definition sample_extended (to : list string) (alts : list (string * string)) : EmailMessage :=
  set_global_merge_vars (sample_djrill to alts) (Some sample_merge_vars).

(** The exchange the sample backend has with a server for a message of
    the direct kind. *)
Definition sample_exchange (resp : Response) : Exchange :=
  {| ex_url := "http://mandrillapp.com/api/1.0/messages/send.json";
     ex_data := "{...}";
     ex_response := resp |}.

(** Headers of which the extension merge keeps two. *)
Definition sample_headers : gmap string string :=
  <["X-Custom" := "1"]> (<["Reply-To" := "a@b.com"]> (<["Cc" := "x@y.com"]> ∅)).

(** The host object of a template message. *)
Definition sample_template_host : EmailMessage :=
  host_EmailMessage "Subject" "Body" "Jane Doe <jane@example.com>"
    ["to@example.com"] sample_headers.

(** A message of the framework that is not of this module's classes. *)
Definition sample_plain_html : EmailMessage :=
  host_EmailMultiAlternatives "Subject" "Body" "Jane Doe <jane@example.com>"
    ["to@example.com"] sample_headers [sample_html].

(** A server that confirms the first request it sees and rejects the
    later ones. *)
Definition server_accepts_once (log : list Exchange) (url data : string) : Response :=
  match log with
  | [] => {| status_code := 200; content := "[]" |}
  | _ :: _ => {| status_code := 500; content := "{message: Invalid API key}" |}
  end.

(** [DjrillTemplateMessage(template_name="welcome", tags=["signup"], ...)]
    on that host object, as the constructor leaves it. *)
Definition sample_template : EmailMessage :=
  {| subject := "Subject";
     body := "Body";
     from_email := "Jane Doe <jane@example.com>";
     recipients := ["to@example.com"];
     encoding := None;
     extra_headers := sample_headers;
     content_subtype := "mandrill.template";
     alternatives := None;
     from_name := Some None;
     tags := Some ["signup"];
     track_opens := Some true;
     track_clicks := Some true;
     global_merge_vars := None;
     template_name := Some "welcome";
     template_content := Some [] |}.

(** A tag of 51 characters. *)
Definition sample_long_tag : string :=
  "a-tag-that-is-one-character-longer-than-the-limit-x".

Section Host.

(** The host's and the standard library's functions the backend calls. *)
Variable sanitize_address : string -> option string -> string.
Variable parseaddr : string -> string * string.
Variable json_dumps : gmap string pyval -> string.
Variable json_loads : string -> Exc pyval.

(** The remote server: its answer to a request, given the exchanges so
    far. *)
Variable server : list Exchange -> string -> string -> Response.

(** The framework's [settings] object. *)
Variable settings : Settings.

(** [requests.post(target, data=data)] *)
Definition requests_post (target data : string) : IO Response :=
  fun log =>
    let resp := server log target data in
    (ok resp, (log ++ [mkExchange target data resp])%list).

(** *** [DjrillBackend._build_standard_payload] *)
Definition _build_standard_payload (self : DjrillBackend)
    (message : EmailMessage) : gmap string pyval :=
  let recipients_list :=
    (fun addr => sanitize_address addr (encoding message)) <$> recipients message in
  let recipients := recipient_entry <$> (parseaddr <$> recipients_list) in
  let sender := sanitize_address (from_email message) (encoding message) in
  let '(name, email) := parseaddr sender in
  <["key" := PStr (api_key self)]>
    (<["message" :=
         PDict (<["text" := PStr (body message)]>
                  (<["subject" := PStr (subject message)]>
                     (<["from_email" := PStr email]>
                        (<["from_name" :=
                             match from_name message with
                             | None => PStr name
                             | Some None => PNone
                             | Some (Some n) => PStr n
                             end]>
                           (<["to" := PList recipients]> ∅)))))]> ∅).

(** The payload [_send] posts: the standard payload, updated for the
    messages whose content subtype starts with [mandrill]. *)
Definition build_payload (self : DjrillBackend) (message : EmailMessage)
    : Exc (gmap string pyval) :=
  let payload := _build_standard_payload self message in
  if startswith (content_subtype message) "mandrill"
  then _update_mandrill_payload payload message
  else ok payload.

(** *** [DjrillBackend._send] *)
Definition _send (self : DjrillBackend) (message : EmailMessage) : IO bool :=
  if negb (list_nonempty (recipients message)) then ret false
  else
    (payload <- lift (build_payload self message) ;;
     target <- lift (_get_target settings self message) ;;
     resp <- requests_post target (json_dumps payload) ;;
     if negb (status_code resp =? 200) then
       if fail_silently self then ret false
       else
         data <- lift (json_loads (content resp)) ;;
         message <- lift (getitem data "message") ;;
         throw (DjrillBackendHTTPError (status_code resp) message)
     else ret true)%io.

(** *** [DjrillBackend.send_messages] *)
Fixpoint send_messages_loop (self : DjrillBackend)
    (email_messages : list EmailMessage) (num_sent : Z) : IO Z :=
  match email_messages with
  | [] => ret num_sent
  | message :: rest =>
      (sent <- _send self message ;;
       send_messages_loop self rest (if sent then num_sent + 1 else num_sent))%io
  end.

(** The result is [None] for the bare [return] and the integer
    [num_sent] otherwise. *)
Definition send_messages (self : DjrillBackend)
    (email_messages : list EmailMessage) : IO pyval :=
  if negb (list_nonempty email_messages) then ret PNone
  else
    (num_sent <- send_messages_loop self email_messages 0 ;;
     ret (PInt num_sent))%io.


(** ** Properties *)

(** *** Tags *)

Lemma _set_mandrill_tags_loop_spec (tags tag_list : list string) :
  _set_mandrill_tags_loop tags tag_list =
  if existsb reserved_tag tags
  then raise (ImproperlyConfigured reserved_tag_msg)
  else ok (tag_list ++ List.filter short_tag tags)%list.
Proof.
  revert tag_list.
  induction tags as [|tag rest IH]; intros tag_list; simpl.
  - rewrite app_nil_r. reflexivity.
  - unfold reserved_tag, short_tag in *.
    destruct (len tag <=? 50)%nat, (startswith tag "_"); simpl; try reflexivity.
    + rewrite IH. destruct (existsb _ rest); [reflexivity|].
      rewrite <- app_assoc. reflexivity.
    + apply IH.
Qed.

Lemma _set_mandrill_tags_spec (tags : list string) :
  _set_mandrill_tags tags =
  if existsb reserved_tag tags
  then raise (ImproperlyConfigured reserved_tag_msg)
  else ok (List.filter short_tag tags).
Proof. apply _set_mandrill_tags_loop_spec. Qed.

(** *** Constructors *)

Lemma DjrillMessageMixin_init_spec (self : EmailMessage) (fn : option string)
    (tgs : option (list string)) (o c : bool) :
  DjrillMessageMixin_init self fn tgs o c =
  if existsb reserved_tag (default [] tgs)
  then raise (ImproperlyConfigured reserved_tag_msg)
  else ok {| subject := subject self;
             body := body self;
             from_email := from_email self;
             recipients := recipients self;
             encoding := encoding self;
             extra_headers := extra_headers self;
             content_subtype := content_subtype self;
             alternatives := alternatives self;
             from_name := Some fn;
             tags := Some (List.filter short_tag (default [] tgs));
             track_opens := Some o;
             track_clicks := Some c;
             global_merge_vars := global_merge_vars self;
             template_name := template_name self;
             template_content := template_content self |}.
Proof.
  unfold DjrillMessageMixin_init. rewrite _set_mandrill_tags_spec.
  destruct (existsb reserved_tag (default [] tgs)); reflexivity.
Qed.

(** What [DjrillMessage(...)] leaves in the object. *)
Lemma DjrillMessage_init_ok (host : EmailMessage) (fn : option string)
    (tgs : option (list string)) (o c : bool) (m : EmailMessage) :
  DjrillMessage_init host fn tgs o c = ok m ->
  content_subtype m = "mandrill" /\
  from_name m = Some fn /\
  tags m = Some (List.filter short_tag (default [] tgs)) /\
  track_opens m = Some o /\ track_clicks m = Some c /\
  global_merge_vars m = global_merge_vars host /\
  alternatives m = alternatives host /\
  recipients m = recipients host /\
  from_email m = from_email host /\
  encoding m = encoding host /\
  provider_extended m = true.
Proof.
  unfold DjrillMessage_init. rewrite DjrillMessageMixin_init_spec.
  destruct (existsb reserved_tag (default [] tgs)); [discriminate|].
  intros [= <-]. repeat split; reflexivity.
Qed.

(** C3.  For every sequence of candidate tags passed at construction: if
    any tag starts with an underscore, wherever it stands, construction
    raises the configuration error; otherwise the message's tags are
    exactly the input tags of at most 50 characters, in input order, the
    longer ones left out, nothing deduplicated or rewritten. *)
Theorem C3_tags_at_construction (candidates : list string) :
  if existsb reserved_tag candidates
  then
    _set_mandrill_tags candidates = raise (ImproperlyConfigured reserved_tag_msg) /\
    forall self fn o c,
      DjrillMessageMixin_init self fn (Some candidates) o c
      = raise (ImproperlyConfigured reserved_tag_msg)
  else
    _set_mandrill_tags candidates = ok (List.filter short_tag candidates) /\
    forall self fn o c,
      exists m,
        DjrillMessageMixin_init self fn (Some candidates) o c = ok m /\
        tags m = Some (List.filter short_tag candidates).
Proof.
  pose proof (_set_mandrill_tags_spec candidates) as Hs.
  destruct (existsb reserved_tag candidates) eqn:E.
  - split; [exact Hs|]. intros self fn o c.
    rewrite DjrillMessageMixin_init_spec. simpl. rewrite E. reflexivity.
  - split; [exact Hs|]. intros self fn o c.
    rewrite DjrillMessageMixin_init_spec. simpl. rewrite E.
    eexists. split; reflexivity.
Qed.

(** The reserved prefix decides alone: an over-length reserved tag is an
    error too, and the position of the tag does not matter. *)
Lemma reserved_tag_anywhere (before after : list string) (tag : string) :
  reserved_tag tag = true ->
  _set_mandrill_tags (before ++ tag :: after)
  = raise (ImproperlyConfigured reserved_tag_msg).
Proof.
  intros H. rewrite _set_mandrill_tags_spec.
  rewrite existsb_app. simpl. rewrite H.
  rewrite orb_true_r. reflexivity.
Qed.

(** C6 (as the code has it).  Constructing a template message whose tags
    hold no reserved tag: with a missing or empty [template_name] it
    fails with [RuntimeError], which is not the configuration error;
    with a non-empty one it succeeds, and [template_content] is the empty
    sequence when none was supplied. *)
Theorem C6_template_name_required (self : EmailMessage)
    (tn : option string) (tc : option (list pyval))
    (fn : option string) (tgs : option (list string)) (o c : bool) :
  existsb reserved_tag (default [] tgs) = false ->
  if falsy_str tn
  then
    DjrillTemplateMessage_init self tn tc fn tgs o c
    = raise (RuntimeError "Template name is required") /\
    is_configuration_error (RuntimeError "Template name is required") = false
  else
    exists m,
      DjrillTemplateMessage_init self tn tc fn tgs o c = ok m /\
      template_name m = tn /\
      template_content m = Some (default [] tc) /\
      (tc = None -> template_content m = Some []) /\
      content_subtype m = "mandrill.template".
Proof.
  intros Htags. unfold DjrillTemplateMessage_init.
  rewrite DjrillMessageMixin_init_spec, Htags. simpl.
  destruct (falsy_str tn).
  - split; reflexivity.
  - eexists. split; [reflexivity|]. simpl.
    repeat split. intros ->. reflexivity.
Qed.

(** The tags are looked at first: a reserved tag makes the construction
    of a template message fail with the configuration error, whatever the
    template name. *)
Lemma DjrillTemplateMessage_init_reserved_tag (self : EmailMessage)
    (tn : option string) (tc : option (list pyval))
    (fn : option string) (tgs : option (list string)) (o c : bool) :
  existsb reserved_tag (default [] tgs) = true ->
  DjrillTemplateMessage_init self tn tc fn tgs o c
  = raise (ImproperlyConfigured reserved_tag_msg).
Proof.
  intros Htags. unfold DjrillTemplateMessage_init.
  rewrite DjrillMessageMixin_init_spec, Htags. reflexivity.
Qed.

Lemma DjrillTemplateMessage_init_ok (host : EmailMessage)
    (tn : option string) (tc : option (list pyval))
    (fn : option string) (tgs : option (list string)) (o c : bool)
    (m : EmailMessage) :
  DjrillTemplateMessage_init host tn tc fn tgs o c = ok m ->
  content_subtype m = "mandrill.template" /\
  template_name m = tn /\ falsy_str tn = false /\
  template_content m = Some (default [] tc) /\
  global_merge_vars m = global_merge_vars host /\
  alternatives m = alternatives host /\
  recipients m = recipients host /\
  provider_extended m = true.
Proof.
  unfold DjrillTemplateMessage_init.
  rewrite DjrillMessageMixin_init_spec.
  destruct (existsb reserved_tag (default [] tgs)); [discriminate|]. simpl.
  destruct (falsy_str tn) eqn:E; [discriminate|].
  intros [= <-]. unfold provider_extended. simpl.
  destruct tn; [|discriminate]. repeat split; reflexivity.
Qed.


(** *** Strings *)

Lemma last_char_app_slash (s : string) : last_char (s ++ "/") = Some slash.
Proof.
  induction s as [|c s IH]; [reflexivity|].
  simpl. destruct (s ++ "/") eqn:E; [|exact IH].
  destruct s; discriminate.
Qed.

Lemma last_char_None (s : string) : last_char s = None -> s = "".
Proof.
  induction s as [|c s IH]; [reflexivity|].
  simpl. destruct s; [discriminate|].
  intros H. apply IH in H. discriminate.
Qed.

Lemma ends_with_slash_app (s : string) : ends_with_slash (s ++ "/") = true.
Proof. unfold ends_with_slash. rewrite last_char_app_slash. reflexivity. Qed.

(** *** Payload dictionaries *)

Lemma message_of_lookup (p md : gmap string pyval) :
  p !! "message" = Some (PDict md) -> message_of p = ok md.
Proof. intros H. unfold message_of, getitem. rewrite H. reflexivity. Qed.

(** One in-place update of the message sub-mapping: it succeeds, the new
    keys win, and no top-level key other than [message] changes. *)
Lemma update_message_spec (p md new : gmap string pyval) :
  p !! "message" = Some (PDict md) ->
  exists p',
    update_message p new = ok p' /\
    p' !! "message" = Some (PDict (new ∪ md)) /\
    forall k, k <> "message" -> p' !! k = p !! k.
Proof.
  intros H. exists (<["message" := PDict (new ∪ md)]> p).
  unfold update_message, set_message. rewrite (message_of_lookup _ _ H). simpl.
  split; [reflexivity|]. split.
  - apply lookup_insert_eq.
  - intros k Hk. apply lookup_insert_ne. congruence.
Qed.

Lemma standard_payload_message (self : DjrillBackend) (m : EmailMessage) :
  exists md,
    _build_standard_payload self m !! "message" = Some (PDict md) /\
    md !! "from_name" =
      Some (match from_name m with
            | None => PStr (parseaddr (sanitize_address (from_email m) (encoding m))).1
            | Some None => PNone
            | Some (Some n) => PStr n
            end) /\
    md !! "html" = None /\
    md !! "global_merge_vars" = None /\
    md !! "template_name" = None /\
    md !! "template_content" = None.
Proof.
  unfold _build_standard_payload.
  destruct (parseaddr (sanitize_address (from_email m) (encoding m))) as [name email].
  eexists. split; [reflexivity|]. simpl.
  repeat split; reflexivity.
Qed.

Lemma standard_payload_top (self : DjrillBackend) (m : EmailMessage) :
  _build_standard_payload self m !! "key" = Some (PStr (api_key self)) /\
  _build_standard_payload self m !! "template_name" = None /\
  _build_standard_payload self m !! "template_content" = None.
Proof.
  unfold _build_standard_payload.
  destruct (parseaddr (sanitize_address (from_email m) (encoding m))) as [name email].
  repeat split; reflexivity.
Qed.

(** *** The extension merge *)

(** Runs the next [update_message] of the goal on a payload whose
    message sub-mapping is known. *)
Ltac run_update H p' Hm Hk :=
  match goal with
  | |- context [update_message ?p ?new] =>
      let Heq := fresh "Heq" in
      destruct (update_message_spec p _ new H) as (p' & Heq & Hm & Hk);
      rewrite Heq; clear Heq; simpl
  end.

Section Merge.

Variables (payload md : gmap string pyval) (m : EmailMessage).
Variables (t : list string) (o c : bool).

Hypothesis Hpayload : payload !! "message" = Some (PDict md).
Hypothesis Htags : tags m = Some t.
Hypothesis Hopens : track_opens m = Some o.
Hypothesis Hclicks : track_clicks m = Some c.

(** Up to the read of [message.global_merge_vars]. *)
Lemma merge_prefix :
  exists p1 md1,
    p1 !! "message" = Some (PDict md1) /\
    (forall k, k <> "message" -> p1 !! k = payload !! k) /\
    (forall k, k <> "headers" -> k <> "tags" -> k <> "track_opens" ->
               k <> "track_clicks" -> md1 !! k = md !! k) /\
    _update_mandrill_payload payload m =
      (gmv <- getattr (global_merge_vars m) "global_merge_vars" ;;
       payload <-
         match gmv with
         | Some vars =>
             if dict_nonempty vars then
               update_message p1
                 (<["global_merge_vars" := PList (merge_var <$> map_to_list vars)]> ∅)
             else ok p1
         | None => ok p1
         end ;;
       payload <-
         match alternatives m with
         | Some (alt :: more) =>
             if (1 <? length (alt :: more))%nat then
               raise (ImproperlyConfigured multiple_alternatives_msg)
             else
               update_message payload (<["html" := PStr alt.1]> ∅)
         | _ => ok payload
         end ;;
       if String.eqb (content_subtype m) "mandrill.template" then
         template_name <- getattr (template_name m) "template_name" ;;
         template_content <- getattr (template_content m) "template_content" ;;
         ok (dict_update payload
               (<["template_name" := PStr template_name]>
                  (<["template_content" := PList template_content]> ∅)))
       else ok payload)%exc.
Proof.
  unfold _update_mandrill_payload.
  rewrite Htags, Hopens, Hclicks.
  destruct (dict_nonempty (extra_headers m)).
  - run_update Hpayload p0 Hm0 Hk0.
    rewrite (message_of_lookup _ _ Hm0). simpl.
    eexists (set_message p0 _), _.
    split; [apply lookup_insert_eq|]. split.
    + intros k Hk. unfold set_message.
      rewrite lookup_insert_ne, Hk0 by congruence. reflexivity.
    + split; [|reflexivity].
      intros k H1 H2 H3 H4. unfold dict_update.
      rewrite !lookup_union.
      rewrite !lookup_insert_ne, !lookup_empty by congruence.
      destruct (md !! k); reflexivity.
  - cbn [ebind ok]. rewrite (message_of_lookup _ _ Hpayload). simpl.
    eexists (set_message payload _), _.
    split; [apply lookup_insert_eq|]. split.
    + intros k Hk. unfold set_message.
      rewrite lookup_insert_ne by congruence. reflexivity.
    + split; [|reflexivity].
      intros k H1 H2 H3 H4. unfold dict_update.
      rewrite !lookup_union.
      rewrite !lookup_insert_ne, !lookup_empty by congruence.
      destruct (md !! k); reflexivity.
Qed.

(** A message on which [global_merge_vars] was never assigned stops the
    merge at the read of that attribute. *)
Lemma merge_unset_global_merge_vars :
  global_merge_vars m = None ->
  _update_mandrill_payload payload m = raise (AttributeError "global_merge_vars").
Proof.
  intros Hg. destruct merge_prefix as (p1 & md1 & _ & _ & _ & ->).
  rewrite Hg. reflexivity.
Qed.

(** With the attribute assigned, two alternatives or more are refused. *)
Lemma merge_multiple_alternatives g a1 a2 rest :
  global_merge_vars m = Some g ->
  alternatives m = Some (a1 :: a2 :: rest) ->
  _update_mandrill_payload payload m
  = raise (ImproperlyConfigured multiple_alternatives_msg).
Proof.
  intros Hg Ha. destruct merge_prefix as (p1 & md1 & Hm1 & _ & _ & ->).
  rewrite Hg, Ha. simpl.
  destruct g as [vars|]; simpl; [|reflexivity].
  destruct (dict_nonempty vars); [|reflexivity].
  run_update Hm1 p2 Hm2 Hk2. reflexivity.
Qed.

(** With the attribute assigned and at most one alternative the merge
    succeeds, and this is what the keys the properties below are about
    hold afterwards. *)
Lemma merge_ok g :
  global_merge_vars m = Some g ->
  (length (default [] (alternatives m)) <= 1)%nat ->
  (String.eqb (content_subtype m) "mandrill.template" = true ->
   is_Some (template_name m) /\ is_Some (template_content m)) ->
  exists p' md',
    _update_mandrill_payload payload m = ok p' /\
    p' !! "message" = Some (PDict md') /\
    md' !! "html" =
      match alternatives m with
      | Some (a :: _) => Some (PStr a.1)
      | _ => md !! "html"
      end /\
    md' !! "global_merge_vars" =
      match g with
      | Some vars =>
          if dict_nonempty vars
          then Some (PList (merge_var <$> map_to_list vars))
          else md !! "global_merge_vars"
      | None => md !! "global_merge_vars"
      end /\
    md' !! "template_name" = md !! "template_name" /\
    md' !! "template_content" = md !! "template_content" /\
    p' !! "template_name" =
      (if String.eqb (content_subtype m) "mandrill.template"
       then PStr <$> template_name m else payload !! "template_name") /\
    p' !! "template_content" =
      (if String.eqb (content_subtype m) "mandrill.template"
       then PList <$> template_content m else payload !! "template_content").
Proof.
  intros Hg Hlen Htmpl.
  destruct merge_prefix as (p1 & md1 & Hm1 & Hk1 & Hmd1 & ->).
  rewrite Hg. cbn [ebind getattr ok].
  (* the merge variables *)
  assert (exists p2 md2,
    match g with
    | Some vars =>
        if dict_nonempty vars then
          update_message p1
            (<["global_merge_vars" := PList (merge_var <$> map_to_list vars)]> ∅)
        else ok p1
    | None => ok p1
    end = ok p2 /\
    p2 !! "message" = Some (PDict md2) /\
    (forall k, k <> "message" -> p2 !! k = payload !! k) /\
    (forall k, k <> "headers" -> k <> "tags" -> k <> "track_opens" ->
               k <> "track_clicks" -> k <> "global_merge_vars" ->
               md2 !! k = md !! k) /\
    md2 !! "global_merge_vars" =
      match g with
      | Some vars =>
          if dict_nonempty vars
          then Some (PList (merge_var <$> map_to_list vars))
          else md !! "global_merge_vars"
      | None => md !! "global_merge_vars"
      end) as (p2 & md2 & -> & Hm2 & Hk2 & Hmd2 & Hgmv).
  { destruct g as [vars|]; [destruct (dict_nonempty vars)|].
    - destruct (update_message_spec p1 _
        (<["global_merge_vars" := PList (merge_var <$> map_to_list vars)]> ∅) Hm1)
        as (p2 & -> & Hm2 & Hk2).
      eexists p2, _. split; [reflexivity|]. split; [exact Hm2|].
      split; [intros k Hk; rewrite Hk2, Hk1 by exact Hk; reflexivity|].
      split.
      + intros k H1 H2 H3 H4 H5. rewrite lookup_union_r.
        * apply Hmd1; assumption.
        * rewrite lookup_insert_ne by congruence. apply lookup_empty.
      + rewrite lookup_union_l'; [apply lookup_insert_eq|].
        rewrite lookup_insert_eq. eexists; reflexivity.
    - exists p1, md1. split; [reflexivity|]. split; [exact Hm1|].
      split; [exact Hk1|]. split.
      + intros k H1 H2 H3 H4 _. apply Hmd1; assumption.
      + apply Hmd1; congruence.
    - exists p1, md1. split; [reflexivity|]. split; [exact Hm1|].
      split; [exact Hk1|]. split.
      + intros k H1 H2 H3 H4 _. apply Hmd1; assumption.
      + apply Hmd1; congruence. }
  cbn [ebind ok].
  (* the alternative *)
  assert (exists p3 md3,
    match alternatives m with
    | Some (alt :: more) =>
        if (1 <? length (alt :: more))%nat then
          raise (ImproperlyConfigured multiple_alternatives_msg)
        else
          update_message p2 (<["html" := PStr alt.1]> ∅)
    | _ => ok p2
    end = ok p3 /\
    p3 !! "message" = Some (PDict md3) /\
    (forall k, k <> "message" -> p3 !! k = payload !! k) /\
    (forall k, k <> "html" -> md3 !! k = md2 !! k) /\
    md3 !! "html" =
      match alternatives m with
      | Some (a :: _) => Some (PStr a.1)
      | _ => md !! "html"
      end) as (p3 & md3 & -> & Hm3 & Hk3 & Hmd3 & Hhtml).
  { destruct (alternatives m) as [[|a [|a' more]]|]; simpl in Hlen |- *.
    - exists p2, md2. repeat split; try assumption; try reflexivity.
      apply Hmd2; congruence.
    - destruct (update_message_spec p2 _ (<["html" := PStr a.1]> ∅) Hm2)
        as (p3 & -> & Hm3 & Hk3).
      eexists p3, _. split; [reflexivity|]. split; [exact Hm3|].
      split; [intros k Hk; rewrite Hk3, Hk2 by exact Hk; reflexivity|].
      split.
      + intros k Hk. rewrite lookup_union_r; [reflexivity|].
        rewrite lookup_insert_ne by congruence. apply lookup_empty.
      + rewrite lookup_union_l'; [apply lookup_insert_eq|].
        rewrite lookup_insert_eq. eexists; reflexivity.
    - lia.
    - exists p2, md2. repeat split; try assumption; try reflexivity.
      apply Hmd2; congruence. }
  cbn [ebind ok].
  assert (md3 !! "global_merge_vars" = md2 !! "global_merge_vars") as Hg3
    by (apply Hmd3; congruence).
  assert (md3 !! "template_name" = md !! "template_name") as Htn3
    by (rewrite Hmd3 by congruence; apply Hmd2; congruence).
  assert (md3 !! "template_content" = md !! "template_content") as Htc3
    by (rewrite Hmd3 by congruence; apply Hmd2; congruence).
  (* the template *)
  destruct (String.eqb (content_subtype m) "mandrill.template") eqn:Et.
  - destruct (Htmpl eq_refl) as [[tn Htn] [tc Htc]].
    rewrite Htn, Htc. cbn [ebind getattr ok].
    eexists _, md3. split; [reflexivity|].
    unfold dict_update.
    split; [rewrite lookup_union_r by reflexivity; exact Hm3|].
    split; [exact Hhtml|]. split; [rewrite Hg3; exact Hgmv|].
    split; [exact Htn3|]. split; [exact Htc3|].
    split.
    + rewrite lookup_union_l'
        by (rewrite lookup_insert_eq; eexists; reflexivity).
      rewrite lookup_insert_eq. reflexivity.
    + rewrite lookup_union_l'
        by (rewrite lookup_insert_ne, lookup_insert_eq by congruence;
            eexists; reflexivity).
      rewrite lookup_insert_ne, lookup_insert_eq by congruence. reflexivity.
  - exists p3, md3. split; [reflexivity|]. split; [exact Hm3|].
    split; [exact Hhtml|]. split; [rewrite Hg3; exact Hgmv|].
    split; [exact Htn3|]. split; [exact Htc3|].
    split; apply Hk3; congruence.
Qed.

End Merge.

(** *** Construction of the backend *)

Lemma DjrillBackend_init_key_absent (u : string) (key : option string) (fs : bool) :
  u <> "" -> falsy_str key = true ->
  DjrillBackend_init {| MANDRILL_API_KEY := key; MANDRILL_API_URL := Some u |} fs
  = raise (ImproperlyConfigured no_api_key_msg).
Proof.
  intros Hu Hk. unfold DjrillBackend_init. simpl.
  destruct (last_char u) as [c|] eqn:E.
  - destruct (negb (Ascii.eqb c slash)); simpl; rewrite Hk; reflexivity.
  - apply last_char_None in E. contradiction.
Qed.

Lemma DjrillBackend_init_ok (s : Settings) (fs : bool) (self : DjrillBackend) :
  DjrillBackend_init s fs = ok self ->
  ends_with_slash (api_url self) = true /\
  fail_silently self = false /\
  exists key u,
    MANDRILL_API_KEY s = Some key /\ key <> "" /\ api_key self = key /\
    MANDRILL_API_URL s = Some u /\
    api_url self = (if ends_with_slash u then u else u ++ "/").
Proof.
  unfold DjrillBackend_init.
  destruct s as [key url]; simpl.
  destruct url as [u|]; [|discriminate].
  unfold ends_with_slash.
  destruct (last_char u) as [c|] eqn:E; [|discriminate].
  destruct (Ascii.eqb c slash) eqn:Ec; simpl.
  - destruct key as [k|]; simpl; [|discriminate].
    destruct (len k =? 0)%nat eqn:Ek; [discriminate|].
    destruct (len u =? 0)%nat; [discriminate|].
    intros [= <-]; simpl. rewrite E, Ec.
    split; [reflexivity|]. split; [reflexivity|].
    exists k, u. repeat split; rewrite ?E, ?Ec; try reflexivity.
    intros ->. discriminate.
  - destruct key as [k|]; simpl; [|discriminate].
    destruct (len k =? 0)%nat eqn:Ek; [discriminate|].
    destruct (len (u ++ "/") =? 0)%nat; [discriminate|].
    intros [= <-]; simpl. rewrite last_char_app_slash.
    split; [reflexivity|]. split; [reflexivity|].
    exists k, u. repeat split; rewrite ?E, ?Ec; try reflexivity.
    intros ->. discriminate.
Qed.

(** C7 (the defect).  When the base URL is not configured, construction
    does not reach either of its two checks: indexing the missing URL
    raises [TypeError], which is not the configuration error, whatever the
    API key is. *)
Theorem C7_init_url_absent_raises_TypeError (key : option string) (fs : bool) :
  exists e,
    DjrillBackend_init {| MANDRILL_API_KEY := key; MANDRILL_API_URL := None |} fs
    = raise e /\
    e = TypeError "'NoneType' object is not subscriptable" /\
    is_configuration_error e = false.
Proof. eexists. split; [reflexivity|]. split; reflexivity. Qed.

(** An empty URL fares no better: [IndexError]. *)
Lemma DjrillBackend_init_url_empty (key : option string) (fs : bool) :
  DjrillBackend_init {| MANDRILL_API_KEY := key; MANDRILL_API_URL := Some "" |} fs
  = raise (IndexError "string index out of range").
Proof. reflexivity. Qed.

(** The [fail_silently] argument of the constructor never reaches the
    instance. *)
Lemma DjrillBackend_init_fail_silently :
  DjrillBackend_init sample_settings true = ok (sample_backend false).
Proof. reflexivity. Qed.

(** *** The payload [_send] posts *)

Lemma provider_extended_attrs (m : EmailMessage) :
  provider_extended m = true ->
  startswith (content_subtype m) "mandrill" = true /\
  (exists t o c,
     tags m = Some t /\ track_opens m = Some o /\ track_clicks m = Some c) /\
  (String.eqb (content_subtype m) "mandrill.template" = true ->
   is_Some (template_name m) /\ is_Some (template_content m)).
Proof.
  unfold provider_extended. intros H.
  repeat (apply andb_prop in H; destruct H as [H ?]).
  split; [assumption|]. split.
  - destruct (tags m) as [t|], (track_opens m) as [o|], (track_clicks m) as [c|];
      try discriminate.
    exists t, o, c. repeat split.
  - intros Et. rewrite Et in *.
    destruct (template_name m), (template_content m); try discriminate.
    split; eexists; reflexivity.
Qed.

(** A message that is not provider-extended gets the standard payload. *)
Lemma build_payload_standard (self : DjrillBackend) (m : EmailMessage) :
  startswith (content_subtype m) "mandrill" = false ->
  build_payload self m = ok (_build_standard_payload self m).
Proof. intros H. unfold build_payload. rewrite H. reflexivity. Qed.

Lemma build_payload_unset_global_merge_vars (self : DjrillBackend) (m : EmailMessage) :
  provider_extended m = true ->
  global_merge_vars m = None ->
  build_payload self m = raise (AttributeError "global_merge_vars").
Proof.
  intros Hm Hg.
  destruct (provider_extended_attrs m Hm) as (Hs & (t & o & c & Ht & Ho & Hc) & _).
  destruct (standard_payload_message self m) as (md & Hmd & _).
  unfold build_payload. rewrite Hs.
  exact (merge_unset_global_merge_vars _ md m t o c Hmd Ht Ho Hc Hg).
Qed.

Lemma build_payload_multiple_alternatives (self : DjrillBackend) (m : EmailMessage)
    g a1 a2 rest :
  provider_extended m = true ->
  global_merge_vars m = Some g ->
  alternatives m = Some (a1 :: a2 :: rest) ->
  build_payload self m = raise (ImproperlyConfigured multiple_alternatives_msg).
Proof.
  intros Hm Hg Ha.
  destruct (provider_extended_attrs m Hm) as (Hs & (t & o & c & Ht & Ho & Hc) & _).
  destruct (standard_payload_message self m) as (md & Hmd & _).
  unfold build_payload. rewrite Hs.
  exact (merge_multiple_alternatives _ md m t o c Hmd Ht Ho Hc g a1 a2 rest Hg Ha).
Qed.

(** The payload of a provider-extended message with its
    [global_merge_vars] assigned and at most one alternative. *)
Lemma build_payload_ok (self : DjrillBackend) (m : EmailMessage) g :
  provider_extended m = true ->
  global_merge_vars m = Some g ->
  (length (default [] (alternatives m)) <= 1)%nat ->
  exists p md,
    build_payload self m = ok p /\
    p !! "message" = Some (PDict md) /\
    md !! "html" =
      match alternatives m with
      | Some (a :: _) => Some (PStr a.1)
      | _ => None
      end /\
    md !! "global_merge_vars" =
      match g with
      | Some vars =>
          if dict_nonempty vars
          then Some (PList (merge_var <$> map_to_list vars))
          else None
      | None => None
      end /\
    md !! "template_name" = None /\
    md !! "template_content" = None /\
    p !! "template_name" =
      (if String.eqb (content_subtype m) "mandrill.template"
       then PStr <$> template_name m else None) /\
    p !! "template_content" =
      (if String.eqb (content_subtype m) "mandrill.template"
       then PList <$> template_content m else None).
Proof.
  intros Hm Hg Hlen.
  destruct (provider_extended_attrs m Hm) as (Hs & (t & o & c & Ht & Ho & Hc) & Htm).
  destruct (standard_payload_message self m) as (md & Hmd & _ & Hh & Hv & Hn & Hc').
  destruct (standard_payload_top self m) as (_ & Htn & Htc).
  destruct (merge_ok _ md m t o c Hmd Ht Ho Hc g Hg Hlen Htm)
    as (p' & md' & Heq & H1 & H2 & H3 & H4 & H5 & H6 & H7).
  exists p', md'. unfold build_payload. rewrite Hs.
  split; [exact Heq|]. split; [exact H1|].
  rewrite Hh in H2. rewrite Hv in H3. rewrite Hn in H4. rewrite Hc' in H5.
  rewrite Htn in H6. rewrite Htc in H7.
  repeat split; assumption.
Qed.

(** *** The target URL *)

Lemma append_assoc (a b c : string) : ((a ++ b) ++ c = a ++ (b ++ c))%string.
Proof.
  induction a as [|x a IH]; [reflexivity|].
  change (String x ((a ++ b) ++ c) = String x (a ++ (b ++ c)))%string.
  rewrite IH. reflexivity.
Qed.

Lemma append_inj_l (a b c : string) : (a ++ b = a ++ c)%string -> b = c.
Proof.
  induction a as [|x a IH]; [exact (fun H => H)|].
  change (String x (a ++ b) = String x (a ++ c) -> b = c)%string.
  intros [= H]. exact (IH H).
Qed.

(** The target is the setting as written in the configuration, followed
    by the suffix of the message's kind. *)
Lemma _get_target_spec (self : DjrillBackend) (m : EmailMessage) (u : string) :
  MANDRILL_API_URL settings = Some u ->
  _get_target settings self m = ok (u ++ target_suffix m).
Proof.
  intros Hu. unfold _get_target, target_suffix. rewrite Hu. simpl.
  destruct (String.eqb (content_subtype m) "mandrill.template"); reflexivity.
Qed.

(** When the configured URL already ends with a slash, that is the
    stored URL as well. *)
Lemma _get_target_normalized (fs : bool) (self : DjrillBackend)
    (m : EmailMessage) (u : string) :
  MANDRILL_API_URL settings = Some u ->
  ends_with_slash u = true ->
  DjrillBackend_init settings fs = ok self ->
  _get_target settings self m = ok (api_url self ++ target_suffix m).
Proof.
  intros Hu Hs Hinit.
  destruct (DjrillBackend_init_ok _ _ _ Hinit)
    as (_ & _ & key & u' & _ & _ & _ & Hu' & Hurl).
  rewrite Hu in Hu'. injection Hu' as <-. rewrite Hs in Hurl.
  rewrite Hurl. apply _get_target_spec. exact Hu.
Qed.

(** C5 (the defect).  When the configured URL lacks its final slash, the
    backend stores the URL with the slash added, but the target of every
    message is built from the configured URL: it is not the stored URL
    followed by the suffix. *)
Theorem C5_target_ignores_normalized_url (fs : bool) (self : DjrillBackend)
    (m : EmailMessage) (u : string) :
  MANDRILL_API_URL settings = Some u ->
  ends_with_slash u = false ->
  DjrillBackend_init settings fs = ok self ->
  api_url self = u ++ "/" /\
  ends_with_slash (api_url self) = true /\
  _get_target settings self m = ok (u ++ target_suffix m) /\
  _get_target settings self m <> ok (api_url self ++ target_suffix m).
Proof.
  intros Hu Hs Hinit.
  destruct (DjrillBackend_init_ok _ _ _ Hinit)
    as (Hslash & _ & key & u' & _ & _ & _ & Hu' & Hurl).
  rewrite Hu in Hu'. injection Hu' as <-. rewrite Hs in Hurl.
  split; [exact Hurl|]. split; [exact Hslash|].
  rewrite (_get_target_spec self m u Hu). split; [reflexivity|].
  rewrite Hurl. intros [= H]. rewrite append_assoc in H.
  apply append_inj_l in H. unfold target_suffix in H.
  destruct (String.eqb (content_subtype m) "mandrill.template"); discriminate.
Qed.

(** The keys of a payload that was built: a template message has the two
    template keys at the top level and not in the message sub-mapping; any
    other message has them nowhere. *)
Lemma built_payload_template_keys (self : DjrillBackend) (m : EmailMessage)
    (p : gmap string pyval) :
  provider_extended m = true \/ startswith (content_subtype m) "mandrill" = false ->
  build_payload self m = ok p ->
  exists md,
    p !! "message" = Some (PDict md) /\
    md !! "template_name" = None /\ md !! "template_content" = None /\
    if String.eqb (content_subtype m) "mandrill.template"
    then is_Some (p !! "template_name") /\ is_Some (p !! "template_content")
    else p !! "template_name" = None /\ p !! "template_content" = None.
Proof.
  intros [Hm|Hs] Hb.
  - destruct (global_merge_vars m) as [g|] eqn:Hg.
    2:{ rewrite (build_payload_unset_global_merge_vars self m Hm Hg) in Hb.
        discriminate. }
    assert (length (default [] (alternatives m)) <= 1)%nat as Hlen.
    { destruct (alternatives m) as [[|a1 [|a2 rest]]|] eqn:Ha; simpl; try lia.
      rewrite (build_payload_multiple_alternatives self m g a1 a2 rest Hm Hg Ha) in Hb.
      discriminate. }
    destruct (build_payload_ok self m g Hm Hg Hlen)
      as (p' & md & Hb' & Hmsg & _ & _ & Hn & Hc & Htn & Htc).
    rewrite Hb in Hb'. injection Hb' as <-.
    exists md. split; [exact Hmsg|]. split; [exact Hn|]. split; [exact Hc|].
    destruct (provider_extended_attrs m Hm) as (_ & _ & Htm).
    destruct (String.eqb (content_subtype m) "mandrill.template").
    + destruct (Htm eq_refl) as [[tn Htn'] [tc Htc']].
      rewrite Htn, Htc, Htn', Htc'. split; eexists; reflexivity.
    + split; assumption.
  - rewrite (build_payload_standard self m Hs) in Hb. injection Hb as <-.
    destruct (standard_payload_message self m) as (md & Hmd & _ & _ & _ & Hn & Hc).
    destruct (standard_payload_top self m) as (_ & Htn & Htc).
    exists md. split; [exact Hmd|]. split; [exact Hn|]. split; [exact Hc|].
    destruct (String.eqb (content_subtype m) "mandrill.template") eqn:Et.
    + apply String.eqb_eq in Et. rewrite Et in Hs. discriminate.
    + split; assumption.
Qed.

(** *** The claims on the payload *)

(** C8 (the defect).  A message as [DjrillMessage(...)] constructs it
    carries no [global_merge_vars] attribute unless its host object had
    one: the extension merge reads the attribute unguarded and raises
    [AttributeError] instead of building a payload without the key. *)
Theorem C8_merge_fails_when_global_merge_vars_unset (self : DjrillBackend)
    (host : EmailMessage) (fn : option string) (tgs : option (list string))
    (o c : bool) (m : EmailMessage) :
  global_merge_vars host = None ->
  DjrillMessage_init host fn tgs o c = ok m ->
  _update_mandrill_payload (_build_standard_payload self m) m
  = raise (AttributeError "global_merge_vars").
Proof.
  intros Hhost Hinit.
  destruct (DjrillMessage_init_ok _ _ _ _ _ _ Hinit)
    as (_ & _ & Ht & Ho & Hc & Hg & _).
  destruct (standard_payload_message self m) as (md & Hmd & _).
  apply (merge_unset_global_merge_vars _ md m _ o c Hmd Ht Ho Hc).
  rewrite Hg. exact Hhost.
Qed.

(** Once the caller has assigned the attribute, the key is in the message
    sub-mapping exactly when the assigned mapping is non-empty, with one
    [{name, content}] entry per variable. *)
Lemma merge_global_merge_vars_assigned (self : DjrillBackend) (m : EmailMessage)
    (g : option (gmap string pyval)) :
  provider_extended m = true ->
  global_merge_vars m = Some g ->
  (length (default [] (alternatives m)) <= 1)%nat ->
  exists p md,
    build_payload self m = ok p /\
    p !! "message" = Some (PDict md) /\
    md !! "global_merge_vars" =
      match g with
      | Some vars =>
          if dict_nonempty vars
          then Some (PList (merge_var <$> map_to_list vars))
          else None
      | None => None
      end.
Proof.
  intros Hm Hg Hlen.
  destruct (build_payload_ok self m g Hm Hg Hlen)
    as (p & md & Hb & Hmsg & _ & Hv & _).
  exists p, md. repeat split; assumption.
Qed.

(** The entries of the list are those of the mapping, each once. *)
Lemma merge_var_entries (vars : gmap string pyval) (k : string) (v : pyval) :
  merge_var (k, v) ∈ merge_var <$> map_to_list vars <-> vars !! k = Some v.
Proof.
  rewrite <- elem_of_map_to_list. split.
  - intros H. apply list_elem_of_fmap in H as ([k' v'] & Heq & Hin).
    unfold merge_var in Heq. simpl in Heq.
    assert (k' = k /\ v' = v) as [-> ->]; [|exact Hin].
    assert (forall d d' : gmap string pyval, PDict d = PDict d' -> d = d')
      as Hinj by (intros d d' [= ->]; reflexivity).
    apply Hinj in Heq.
    assert (Hn : (<["name" := PStr k]> (<["content" := v]> ∅) : gmap string pyval)
                   !! "name" = Some (PStr k)) by apply lookup_insert_eq.
    assert (Hc : (<["name" := PStr k]> (<["content" := v]> ∅) : gmap string pyval)
                   !! "content" = Some v).
    { rewrite lookup_insert_ne by discriminate. apply lookup_insert_eq. }
    rewrite Heq in Hn, Hc.
    rewrite lookup_insert_eq in Hn.
    rewrite lookup_insert_ne, lookup_insert_eq in Hc by discriminate.
    split; congruence.
  - intros H. apply list_elem_of_fmap. exists (k, v). split; [reflexivity|exact H].
Qed.

(** C9 (the defect).  A message constructed without a display name has
    its [from_name] attribute set to [None], so the lookup with the parsed
    name as its default never falls back on it: the payload's [from_name]
    is [None], whatever name the address parser found in [from_email]. *)
Theorem C9_default_from_name_is_not_the_parsed_name (self : DjrillBackend)
    (host : EmailMessage) (tgs : option (list string)) (o c : bool)
    (m : EmailMessage) :
  DjrillMessage_init host None tgs o c = ok m ->
  exists md,
    _build_standard_payload self m !! "message" = Some (PDict md) /\
    md !! "from_name" = Some PNone /\
    md !! "from_name"
    <> Some (PStr (parseaddr (sanitize_address (from_email m) (encoding m))).1).
Proof.
  intros Hinit.
  destruct (DjrillMessage_init_ok _ _ _ _ _ _ Hinit) as (_ & Hfn & _).
  destruct (standard_payload_message self m) as (md & Hmd & Hname & _).
  rewrite Hfn in Hname.
  exists md. split; [exact Hmd|]. split; [exact Hname|].
  rewrite Hname. discriminate.
Qed.

(** The two cases the code does handle. *)
Lemma from_name_explicit (self : DjrillBackend) (m : EmailMessage) (n : string) :
  from_name m = Some (Some n) ->
  exists md,
    _build_standard_payload self m !! "message" = Some (PDict md) /\
    md !! "from_name" = Some (PStr n).
Proof.
  intros Hfn.
  destruct (standard_payload_message self m) as (md & Hmd & Hname & _).
  rewrite Hfn in Hname. exists md. split; assumption.
Qed.

Lemma from_name_parsed_without_attribute (self : DjrillBackend) (m : EmailMessage) :
  from_name m = None ->
  exists md,
    _build_standard_payload self m !! "message" = Some (PDict md) /\
    md !! "from_name"
    = Some (PStr (parseaddr (sanitize_address (from_email m) (encoding m))).1).
Proof.
  intros Hfn.
  destruct (standard_payload_message self m) as (md & Hmd & Hname & _).
  rewrite Hfn in Hname. exists md. split; assumption.
Qed.

(** *** [_send] *)

Lemma list_nonempty_false {A} (l : list A) : list_nonempty l = false <-> l = [].
Proof. destruct l; simpl; split; congruence. Qed.

Lemma _send_no_recipients (self : DjrillBackend) (m : EmailMessage)
    (log : list Exchange) :
  recipients m = [] -> _send self m log = (ok false, log).
Proof. intros H. unfold _send. rewrite H. reflexivity. Qed.

(** An error raised while the payload is built leaves [_send] before the
    transport is called, whatever [fail_silently] says. *)
Lemma _send_build_error (self : DjrillBackend) (m : EmailMessage)
    (log : list Exchange) (e : exn) :
  recipients m <> [] ->
  build_payload self m = raise e ->
  _send self m log = (raise e, log).
Proof.
  intros Hr Hb. unfold _send.
  destruct (recipients m); [congruence|]. simpl.
  unfold iobind, lift. rewrite Hb. reflexivity.
Qed.

(** What [_send] does once the request is on its way. *)
Lemma _send_posted (self : DjrillBackend) (m : EmailMessage)
    (log : list Exchange) (payload : gmap string pyval) (target : string) :
  recipients m <> [] ->
  build_payload self m = ok payload ->
  _get_target settings self m = ok target ->
  let resp := server log target (json_dumps payload) in
  let log' := (log ++ [mkExchange target (json_dumps payload) resp])%list in
  _send self m log =
  if status_code resp =? 200 then (ok true, log')
  else if fail_silently self then (ok false, log')
  else
    match json_loads (content resp) with
    | inl e => (raise e, log')
    | inr data =>
        match getitem data "message" with
        | inl e => (raise e, log')
        | inr message =>
            (raise (DjrillBackendHTTPError (status_code resp) message), log')
        end
    end.
Proof.
  intros Hr Hb Ht resp log'. unfold _send.
  destruct (recipients m); [congruence|]. simpl.
  unfold iobind, lift, requests_post. rewrite Hb, Ht. simpl.
  fold resp. fold log'.
  destruct (status_code resp =? 200); simpl; [reflexivity|].
  destruct (fail_silently self); [reflexivity|].
  destruct (json_loads (content resp)) as [e|data]; simpl; [reflexivity|].
  destruct (getitem data "message"); reflexivity.
Qed.

(** Whatever [_send] returns, the log only grows, and it grows by one
    confirmed exchange exactly when the answer is [True]. *)
Lemma _send_confirmed (self : DjrillBackend) (m : EmailMessage)
    (log log' : list Exchange) (sent : bool) :
  _send self m log = (ok sent, log') ->
  exists new,
    log' = (log ++ new)%list /\
    confirmed new = (if sent then 1 else 0).
Proof.
  destruct (recipients m) as [|r rs] eqn:Hr.
  - rewrite _send_no_recipients by exact Hr.
    intros [= <- <-]. exists []. rewrite app_nil_r. split; reflexivity.
  - assert (recipients m <> []) as Hne by congruence.
    destruct (build_payload self m) as [e|payload] eqn:Hb.
    { rewrite (_send_build_error self m log e Hne Hb). discriminate. }
    destruct (_get_target settings self m) as [e|target] eqn:Ht.
    { unfold _send. rewrite Hr. simpl. unfold iobind, lift.
      rewrite Hb, Ht. discriminate. }
    rewrite (_send_posted self m log payload target Hne Hb Ht).
    destruct (status_code (server log target (json_dumps payload)) =? 200) eqn:Es.
    + intros [= <- <-]. eexists. split; [reflexivity|].
      unfold confirmed. simpl. rewrite Es. reflexivity.
    + destruct (fail_silently self).
      * intros [= <- <-]. eexists. split; [reflexivity|].
        unfold confirmed. simpl. rewrite Es. reflexivity.
      * destruct (json_loads _) as [e|data]; [discriminate|].
        destruct (getitem data "message"); discriminate.
Qed.

Lemma confirmed_app (l1 l2 : list Exchange) :
  confirmed (l1 ++ l2) = confirmed l1 + confirmed l2.
Proof.
  unfold confirmed. rewrite List.filter_app, length_app. lia.
Qed.

Lemma send_messages_loop_confirmed (self : DjrillBackend)
    (msgs : list EmailMessage) (n : Z) (log log' : list Exchange) (r : Z) :
  send_messages_loop self msgs n log = (ok r, log') ->
  exists new, log' = (log ++ new)%list /\ r = n + confirmed new.
Proof.
  revert n log. induction msgs as [|m rest IH]; intros n log; simpl.
  - intros [= <- <-]. exists []. rewrite app_nil_r.
    split; [reflexivity|]. unfold confirmed. simpl. lia.
  - unfold iobind at 1.
    destruct (_send self m log) as [[e|sent] log1] eqn:Hs; [discriminate|].
    intros Hrest.
    destruct (_send_confirmed self m log log1 sent Hs) as (new1 & -> & Hc1).
    destruct (IH _ _ Hrest) as (new2 & -> & ->).
    exists (new1 ++ new2)%list. rewrite app_assoc. split; [reflexivity|].
    rewrite confirmed_app, Hc1. destruct sent; lia.
Qed.

(** *** The claims on sending *)

Lemma _send_multiple_alternatives (self : DjrillBackend) (m : EmailMessage)
    (log : list Exchange) g a1 a2 rest :
  recipients m <> [] ->
  provider_extended m = true ->
  global_merge_vars m = Some g ->
  alternatives m = Some (a1 :: a2 :: rest) ->
  _send self m log = (raise (ImproperlyConfigured multiple_alternatives_msg), log).
Proof.
  intros Hr Hm Hg Ha. apply _send_build_error; [exact Hr|].
  exact (build_payload_multiple_alternatives self m g a1 a2 rest Hm Hg Ha).
Qed.

(** C1.  On the empty sequence [send_messages] returns at once, with
    [None] and not the integer zero and without calling the transport.  On
    a non-empty sequence what it returns is the number of exchanges of
    this call the provider confirmed.  A message without recipients is not
    sent: no exchange, no error, nothing counted; so a message that is
    sent followed by one without recipients gives 1. *)
Theorem C1_send_messages_counts_confirmed (self : DjrillBackend)
    (log : list Exchange) :
  (send_messages self [] log = (ok PNone, log) /\ PNone <> PInt 0) /\
  (forall msgs r log',
     msgs <> [] ->
     send_messages self msgs log = (ok r, log') ->
     exists new, log' = (log ++ new)%list /\ r = PInt (confirmed new)) /\
  (forall m, recipients m = [] -> _send self m log = (ok false, log)) /\
  (forall m1 m2 log1,
     _send self m1 log = (ok true, log1) ->
     recipients m2 = [] ->
     send_messages self [m1; m2] log = (ok (PInt 1), log1)).
Proof.
  split; [split; [reflexivity|discriminate]|].
  split; [|split].
  - intros msgs r log' Hne. unfold send_messages.
    destruct msgs as [|m rest]; [congruence|]. cbn [list_nonempty negb].
    unfold iobind.
    destruct (send_messages_loop self (m :: rest) 0 log) as [[e|n] log1] eqn:Hl;
      [discriminate|].
    intros [= <- <-].
    destruct (send_messages_loop_confirmed _ _ _ _ _ _ Hl) as (new & -> & ->).
    exists new. split; reflexivity.
  - intros m. apply _send_no_recipients.
  - intros m1 m2 log1 H1 H2. unfold send_messages. simpl.
    unfold iobind. rewrite H1.
    rewrite (_send_no_recipients self m2 log1 H2). reflexivity.
Qed.

(** C2.  When the transport answers a message with a status other than
    200: without [fail_silently] an error is raised, and it is the HTTP
    error carrying the status code and the [message] field of the decoded
    body whenever the body has one; with [fail_silently] nothing is
    raised, [_send] answers [False] and the message is not counted. *)
Theorem C2_non_200_response (self : DjrillBackend) (m : EmailMessage)
    (log : list Exchange) (payload : gmap string pyval) (target : string) :
  recipients m <> [] ->
  build_payload self m = ok payload ->
  _get_target settings self m = ok target ->
  let resp := server log target (json_dumps payload) in
  let log' := (log ++ [mkExchange target (json_dumps payload) resp])%list in
  status_code resp <> 200 ->
  (fail_silently self = false ->
   (exists e, _send self m log = (raise e, log')) /\
   (forall d message,
      json_loads (content resp) = ok (PDict d) ->
      d !! "message" = Some message ->
      _send self m log
      = (raise (DjrillBackendHTTPError (status_code resp) message), log'))) /\
  (fail_silently self = true ->
   _send self m log = (ok false, log') /\
   send_messages self [m] log = (ok (PInt 0), log')).
Proof.
  intros Hr Hb Ht resp log' Hs.
  pose proof (_send_posted self m log payload target Hr Hb Ht) as Hsend.
  cbv zeta in Hsend. fold resp in Hsend. fold log' in Hsend.
  apply Z.eqb_neq in Hs. rewrite Hs in Hsend.
  split.
  - intros Hf. rewrite Hf in Hsend. split.
    + rewrite Hsend.
      destruct (json_loads (content resp)) as [e|data]; [eexists; reflexivity|].
      destruct (getitem data "message"); eexists; reflexivity.
    + intros d message Hd Hmsg. rewrite Hsend, Hd. simpl. rewrite Hmsg.
      reflexivity.
  - intros Hf. rewrite Hf in Hsend. split; [exact Hsend|].
    unfold send_messages. simpl. unfold iobind. rewrite Hsend. reflexivity.
Qed.

(** C4 (as the code has it).  At send time, for a provider-extended
    message that has a recipient and whose [global_merge_vars] has been
    assigned: more than one alternative raises the configuration error;
    exactly one puts its content under [html] in the message sub-mapping
    of the payload; none leaves the payload without [html]. *)
Theorem C4_alternatives_at_send (self : DjrillBackend) (m : EmailMessage)
    (g : option (gmap string pyval)) (log : list Exchange) :
  recipients m <> [] ->
  provider_extended m = true ->
  global_merge_vars m = Some g ->
  (forall a1 a2 rest,
     alternatives m = Some (a1 :: a2 :: rest) ->
     exists e,
       _send self m log = (raise e, log) /\ is_configuration_error e = true) /\
  (forall a,
     alternatives m = Some [a] ->
     exists p md,
       build_payload self m = ok p /\
       p !! "message" = Some (PDict md) /\
       md !! "html" = Some (PStr a.1)) /\
  (alternatives m = Some [] \/ alternatives m = None ->
   exists p md,
     build_payload self m = ok p /\
     p !! "message" = Some (PDict md) /\
     md !! "html" = None).
Proof.
  intros Hr Hm Hg. split; [|split].
  - intros a1 a2 rest Ha. eexists. split.
    + exact (_send_multiple_alternatives self m log g a1 a2 rest Hr Hm Hg Ha).
    + reflexivity.
  - intros a Ha.
    assert (length (default [] (alternatives m)) <= 1)%nat as Hlen
      by (rewrite Ha; simpl; lia).
    destruct (build_payload_ok self m g Hm Hg Hlen)
      as (p & md & Hb & Hmsg & Hh & _).
    rewrite Ha in Hh. exists p, md. repeat split; assumption.
  - intros Ha.
    assert (length (default [] (alternatives m)) <= 1)%nat as Hlen
      by (destruct Ha as [-> | ->]; simpl; lia).
    destruct (build_payload_ok self m g Hm Hg Hlen)
      as (p & md & Hb & Hmsg & Hh & _).
    exists p, md. split; [exact Hb|]. split; [exact Hmsg|].
    destruct Ha as [Ha|Ha]; rewrite Ha in Hh; exact Hh.
Qed.

(** C10 (as the code has it).  [fail_silently] guards the answer of the
    transport only: for a provider-extended message that has a recipient,
    whose [global_merge_vars] has been assigned and that has more than one
    alternative, [_send] raises the configuration error with
    [fail_silently] set as well, and before any exchange. *)
Theorem C10_alternatives_check_ignores_fail_silently (self : DjrillBackend)
    (m : EmailMessage) (g : option (gmap string pyval)) (log : list Exchange)
    a1 a2 rest :
  fail_silently self = true ->
  recipients m <> [] ->
  provider_extended m = true ->
  global_merge_vars m = Some g ->
  alternatives m = Some (a1 :: a2 :: rest) ->
  _send self m log = (raise (ImproperlyConfigured multiple_alternatives_msg), log) /\
  is_configuration_error (ImproperlyConfigured multiple_alternatives_msg) = true.
Proof.
  intros _ Hr Hm Hg Ha. split; [|reflexivity].
  exact (_send_multiple_alternatives self m log g a1 a2 rest Hr Hm Hg Ha).
Qed.

(** Not only the configuration error escapes the guard: so does any
    error of the payload construction. *)
Lemma fail_silently_guards_the_response_only (self : DjrillBackend)
    (m : EmailMessage) (log : list Exchange) (e : exn) :
  fail_silently self = true ->
  recipients m <> [] ->
  build_payload self m = raise e ->
  _send self m log = (raise e, log).
Proof. intros _. apply _send_build_error. Qed.

(** *** Further properties: tags *)

Lemma filter_short_tags (tgs : list string) :
  existsb reserved_tag tgs = false ->
  Forall (fun tag => valid_tag tag = true) (List.filter short_tag tgs) /\
  existsb reserved_tag (List.filter short_tag tgs) = false /\
  List.filter short_tag (List.filter short_tag tgs) = List.filter short_tag tgs /\
  (length (List.filter short_tag tgs) <= length tgs)%nat.
Proof.
  induction tgs as [|tag rest IH]; simpl.
  - intros _. repeat split; constructor.
  - intros H. apply orb_false_elim in H as [Hr Hrest].
    destruct (IH Hrest) as (Hv & He & Hf & Hl).
    destruct (short_tag tag) eqn:Hs; simpl.
    + rewrite Hs, Hr, He, Hf. repeat split; try lia.
      constructor; [|exact Hv]. unfold valid_tag. rewrite Hs, Hr. reflexivity.
    + repeat split; try assumption. lia.
Qed.

(** X1.  The tags the validation accepts are all within the length limit and
    free of the reserved prefix, they are no more than the candidates,
    and validating them again changes nothing. *)
Theorem accepted_tags_valid_and_stable (candidates accepted : list string) :
  _set_mandrill_tags candidates = ok accepted ->
  Forall (fun tag => valid_tag tag = true) accepted /\
  _set_mandrill_tags accepted = ok accepted /\
  (length accepted <= length candidates)%nat.
Proof.
  rewrite _set_mandrill_tags_spec.
  destruct (existsb reserved_tag candidates) eqn:E; [discriminate|].
  intros [= <-].
  destruct (filter_short_tags candidates E) as (Hv & He & Hf & Hl).
  split; [exact Hv|]. split; [|exact Hl].
  rewrite _set_mandrill_tags_spec, He, Hf. reflexivity.
Qed.

(** *** Further properties: construction of the backend *)

Lemma last_char_is_Some (u : string) :
  (len u =? 0)%nat = false -> exists ch, last_char u = Some ch.
Proof.
  intros H. destruct (last_char u) as [ch|] eqn:E; [eexists; reflexivity|].
  apply last_char_None in E. subst u. discriminate.
Qed.

Lemma len_app_slash (u : string) : (len (u ++ "/") =? 0)%nat = false.
Proof.
  destruct (len (u ++ "/") =? 0)%nat eqn:E; [|reflexivity].
  pose proof (last_char_app_slash u) as H.
  destruct (u ++ "/")%string; [discriminate H | discriminate E].
Qed.

(** X2.  Every outcome of the constructor.  A missing URL is a [TypeError], an
    empty one an [IndexError]; with a non-empty URL a missing or empty key
    is the configuration error; otherwise the instance holds the key, the
    URL with a final slash (added only when it is not there) and
    [fail_silently] false.  The error for a missing URL is never
    raised. *)
Theorem DjrillBackend_init_outcomes (s : Settings) (fs : bool) :
  DjrillBackend_init s fs =
    match MANDRILL_API_URL s with
    | None => raise (TypeError "'NoneType' object is not subscriptable")
    | Some u =>
        if (len u =? 0)%nat then raise (IndexError "string index out of range")
        else if falsy_str (MANDRILL_API_KEY s)
        then raise (ImproperlyConfigured no_api_key_msg)
        else ok {| fail_silently := false;
                   api_key := default "" (MANDRILL_API_KEY s);
                   api_url := if ends_with_slash u then u else u ++ "/" |}
    end /\
  DjrillBackend_init s fs <> raise (ImproperlyConfigured no_api_url_msg).
Proof.
  assert (DjrillBackend_init s fs =
    match MANDRILL_API_URL s with
    | None => raise (TypeError "'NoneType' object is not subscriptable")
    | Some u =>
        if (len u =? 0)%nat then raise (IndexError "string index out of range")
        else if falsy_str (MANDRILL_API_KEY s)
        then raise (ImproperlyConfigured no_api_key_msg)
        else ok {| fail_silently := false;
                   api_key := default "" (MANDRILL_API_KEY s);
                   api_url := if ends_with_slash u then u else u ++ "/" |}
    end) as Heq.
  { unfold DjrillBackend_init. destruct s as [key url]; simpl.
    destruct url as [u|]; [|reflexivity].
    destruct (len u =? 0)%nat eqn:Hu.
    - destruct u; [reflexivity|discriminate].
    - destruct (last_char_is_Some u Hu) as [ch Hch].
      unfold ends_with_slash. rewrite Hch.
      destruct (Ascii.eqb ch slash); simpl.
      + destruct (falsy_str key); [reflexivity|]. rewrite Hu. reflexivity.
      + destruct (falsy_str key); [reflexivity|].
        rewrite len_app_slash. reflexivity. }
  split; [exact Heq|].
  rewrite Heq.
  destruct (MANDRILL_API_URL s) as [u|]; [|discriminate].
  destruct (len u =? 0)%nat; [discriminate|].
  destruct (falsy_str (MANDRILL_API_KEY s)); [|discriminate].
  unfold no_api_key_msg, no_api_url_msg. intros [= H].
Qed.

(** *** Further properties: the payload *)

Lemma message_of_set_message (p d : gmap string pyval) :
  message_of (set_message p d) = ok d.
Proof. apply message_of_lookup. apply lookup_insert_eq. Qed.

(** Lookups in dictionary literals and in unions with them. *)
Ltac literal_lookup :=
  repeat first
    [ rewrite lookup_insert_eq
    | rewrite lookup_insert_ne by congruence
    | rewrite lookup_empty
    | rewrite lookup_union
    | rewrite union_Some_l
    | rewrite (left_id_L None union) ].

(** Runs the merge as far as the next test on the message. *)
Ltac run_merge H :=
  repeat first
    [ rewrite (message_of_lookup _ _ H)
    | rewrite message_of_set_message
    | progress cbn [ebind ok getattr length Nat.ltb Nat.leb] ].

Section MergeKeys.

Variables (payload md : gmap string pyval) (m : EmailMessage).
Variables (t : list string) (o c : bool) (g : option (gmap string pyval)).

Hypothesis Hpayload : payload !! "message" = Some (PDict md).
Hypothesis Htags : tags m = Some t.
Hypothesis Hopens : track_opens m = Some o.
Hypothesis Hclicks : track_clicks m = Some c.
Hypothesis Hvars : global_merge_vars m = Some g.
Hypothesis Hlen : (length (default [] (alternatives m)) <= 1)%nat.
Hypothesis Htmpl :
  String.eqb (content_subtype m) "mandrill.template" = true ->
  is_Some (template_name m) /\ is_Some (template_content m).

(** The keys the merge always writes, and the ones it leaves alone. *)
Lemma merge_keys :
  exists p' md',
    _update_mandrill_payload payload m = ok p' /\
    p' !! "message" = Some (PDict md') /\
    md' !! "headers" = Some (PDict (accepted_headers_of (extra_headers m))) /\
    md' !! "tags" = Some (PList (PStr <$> t)) /\
    md' !! "track_opens" = Some (PBool o) /\
    md' !! "track_clicks" = Some (PBool c) /\
    (forall k, k <> "headers" -> k <> "tags" -> k <> "track_opens" ->
               k <> "track_clicks" -> k <> "global_merge_vars" -> k <> "html" ->
               md' !! k = md !! k) /\
    (forall k, k <> "message" -> k <> "template_name" ->
               k <> "template_content" -> p' !! k = payload !! k).
Proof.
  unfold _update_mandrill_payload, update_message.
  rewrite Htags, Hopens, Hclicks, Hvars.
  assert (exists tn tc,
    String.eqb (content_subtype m) "mandrill.template" = true ->
    template_name m = Some tn /\ template_content m = Some tc) as (tn & tc & Htn).
  { destruct (String.eqb (content_subtype m) "mandrill.template").
    - destruct (Htmpl eq_refl) as [[tn Ht1] [tc Ht2]].
      exists tn, tc. intros _. split; assumption.
    - exists "", []. discriminate. }
  destruct (alternatives m) as [[|a [|a' more]]|];
    [| |simpl in Hlen; lia|];
    (destruct (dict_nonempty (extra_headers m));
     run_merge Hpayload;
     (destruct g as [vars|];
      [run_merge Hpayload; destruct (dict_nonempty vars)|]);
     run_merge Hpayload;
     (destruct (String.eqb (content_subtype m) "mandrill.template");
      [destruct (Htn eq_refl) as [-> ->]|]);
     run_merge Hpayload;
     eexists _, _; (split; [reflexivity|]);
     unfold set_message, dict_update;
     (split; [literal_lookup; reflexivity|]);
     repeat split; intros; literal_lookup; reflexivity).
Qed.

End MergeKeys.

Lemma standard_payload_fields (self : DjrillBackend) (m : EmailMessage) :
  exists md,
    _build_standard_payload self m !! "message" = Some (PDict md) /\
    _build_standard_payload self m !! "key" = Some (PStr (api_key self)) /\
    dom (_build_standard_payload self m) = ({["key"; "message"]} : gset string) /\
    md !! "text" = Some (PStr (body m)) /\
    md !! "subject" = Some (PStr (subject m)) /\
    md !! "from_email"
    = Some (PStr (parseaddr (sanitize_address (from_email m) (encoding m))).2) /\
    md !! "from_name" =
      Some (match from_name m with
            | None => PStr (parseaddr (sanitize_address (from_email m) (encoding m))).1
            | Some None => PNone
            | Some (Some n) => PStr n
            end) /\
    md !! "to" = Some (PList (to_entries sanitize_address parseaddr m)) /\
    dom md = ({["text"; "subject"; "from_email"; "from_name"; "to"]} : gset string).
Proof.
  unfold _build_standard_payload, to_entries.
  destruct (parseaddr (sanitize_address (from_email m) (encoding m))) as [name email].
  eexists. split; [reflexivity|]. split; [reflexivity|].
  split; [rewrite !dom_insert_L, dom_empty_L; set_solver|].
  split; [reflexivity|]. split; [reflexivity|]. split; [reflexivity|].
  split; [reflexivity|]. split.
  - rewrite <- !list_fmap_compose. reflexivity.
  - rewrite !dom_insert_L, dom_empty_L. set_solver.
Qed.

(** X10.  A message whose content subtype does not start with [mandrill] gets
    the standard payload and nothing else: two top-level keys and five
    keys in the message sub-mapping, so neither its headers nor its
    alternatives reach the provider. *)
Theorem plain_message_payload_keys (self : DjrillBackend) (m : EmailMessage) :
  startswith (content_subtype m) "mandrill" = false ->
  exists p md,
    build_payload self m = ok p /\
    dom p = ({["key"; "message"]} : gset string) /\
    p !! "message" = Some (PDict md) /\
    dom md = ({["text"; "subject"; "from_email"; "from_name"; "to"]} : gset string) /\
    md !! "html" = None /\ md !! "headers" = None.
Proof.
  intros Hs.
  destruct (standard_payload_fields self m)
    as (md & Hmd & _ & Hdom & _ & _ & _ & _ & _ & Hdmd).
  exists (_build_standard_payload self m), md.
  split; [exact (build_payload_standard self m Hs)|].
  split; [exact Hdom|]. split; [exact Hmd|]. split; [exact Hdmd|].
  split; apply not_elem_of_dom; rewrite Hdmd;
    rewrite !not_elem_of_union, !not_elem_of_singleton;
    repeat split; discriminate.
Qed.

(** A provider-extended message whose payload was built had its
    [global_merge_vars] assigned and at most one alternative. *)
Lemma build_payload_extended_inv (self : DjrillBackend) (m : EmailMessage)
    (p : gmap string pyval) :
  provider_extended m = true ->
  build_payload self m = ok p ->
  exists g,
    global_merge_vars m = Some g /\
    (length (default [] (alternatives m)) <= 1)%nat.
Proof.
  intros Hm Hb.
  destruct (global_merge_vars m) as [g|] eqn:Hg.
  2:{ rewrite (build_payload_unset_global_merge_vars self m Hm Hg) in Hb.
      discriminate. }
  exists g. split; [reflexivity|].
  destruct (alternatives m) as [[|a1 [|a2 rest]]|] eqn:Ha; simpl; try lia.
  rewrite (build_payload_multiple_alternatives self m g a1 a2 rest Hm Hg Ha) in Hb.
  discriminate.
Qed.

Lemma build_payload_keys (self : DjrillBackend) (m : EmailMessage)
    (p : gmap string pyval) :
  provider_extended m = true ->
  build_payload self m = ok p ->
  exists md0 md t o c,
    _build_standard_payload self m !! "message" = Some (PDict md0) /\
    tags m = Some t /\ track_opens m = Some o /\ track_clicks m = Some c /\
    p !! "message" = Some (PDict md) /\
    md !! "headers" = Some (PDict (accepted_headers_of (extra_headers m))) /\
    md !! "tags" = Some (PList (PStr <$> t)) /\
    md !! "track_opens" = Some (PBool o) /\
    md !! "track_clicks" = Some (PBool c) /\
    (forall k, k <> "headers" -> k <> "tags" -> k <> "track_opens" ->
               k <> "track_clicks" -> k <> "global_merge_vars" -> k <> "html" ->
               md !! k = md0 !! k) /\
    (forall k, k <> "message" -> k <> "template_name" ->
               k <> "template_content" ->
               p !! k = _build_standard_payload self m !! k).
Proof.
  intros Hm Hb.
  destruct (build_payload_extended_inv self m p Hm Hb) as (g & Hg & Hlen).
  destruct (provider_extended_attrs m Hm) as (Hs & (t & o & c & Ht & Ho & Hc) & Htm).
  destruct (standard_payload_message self m) as (md0 & Hmd0 & _).
  destruct (merge_keys _ md0 m t o c g Hmd0 Ht Ho Hc Hg Hlen Htm)
    as (p' & md & Heq & H1 & H2 & H3 & H4 & H5 & H6 & H7).
  unfold build_payload in Hb. rewrite Hs, Heq in Hb. injection Hb as <-.
  exists md0, md, t, o, c. repeat split; assumption.
Qed.

(** X11.  In every payload that is built, for a message of the framework or a
    provider-extended one, the API key and the fields of the standard
    payload are in place: the extension merge overwrites none of them.
    The [to] list has one entry per recipient, in the order of the
    recipients. *)
Theorem built_payload_standard_fields (self : DjrillBackend) (m : EmailMessage)
    (p : gmap string pyval) :
  provider_extended m = true \/ startswith (content_subtype m) "mandrill" = false ->
  build_payload self m = ok p ->
  exists md,
    p !! "message" = Some (PDict md) /\
    p !! "key" = Some (PStr (api_key self)) /\
    md !! "text" = Some (PStr (body m)) /\
    md !! "subject" = Some (PStr (subject m)) /\
    md !! "from_email"
    = Some (PStr (parseaddr (sanitize_address (from_email m) (encoding m))).2) /\
    md !! "to" = Some (PList (to_entries sanitize_address parseaddr m)) /\
    length (to_entries sanitize_address parseaddr m) = length (recipients m).
Proof.
  intros Hkind Hb.
  destruct (standard_payload_fields self m)
    as (md0 & Hmd0 & Hkey & _ & Htext & Hsubj & Hfrom & _ & Hto & _).
  assert (length (to_entries sanitize_address parseaddr m) = length (recipients m))
    as Hlen by (unfold to_entries; apply length_fmap).
  destruct Hkind as [Hm|Hs].
  - destruct (build_payload_keys self m p Hm Hb)
      as (md0' & md & t & o & c & Hmd0' & _ & _ & _ & Hmd & _ & _ & _ & _ & Hf & Hp).
    rewrite Hmd0 in Hmd0'. injection Hmd0' as <-.
    exists md. split; [exact Hmd|].
    split; [rewrite Hp by discriminate; exact Hkey|].
    rewrite !Hf by discriminate. repeat split; assumption.
  - rewrite (build_payload_standard self m Hs) in Hb. injection Hb as <-.
    exists md0. repeat split; assumption.
Qed.

Lemma accepted_headers_lookup (headers : gmap string string) (k : string) :
  accepted_headers_of headers !! k =
  if accepted_header k then PStr <$> headers !! k else None.
Proof.
  unfold accepted_headers_of. rewrite lookup_fmap.
  destruct (accepted_header k) eqn:Ea.
  - destruct (headers !! k) as [v|] eqn:Eh.
    + assert (filter (fun kv : string * string => accepted_header kv.1 = true)
                headers !! k = Some v) as ->; [|reflexivity].
      apply map_lookup_filter_Some. split; [exact Eh|exact Ea].
    + assert (filter (fun kv : string * string => accepted_header kv.1 = true)
                headers !! k = None) as ->; [|reflexivity].
      apply map_lookup_filter_None. left. exact Eh.
  - assert (filter (fun kv : string * string => accepted_header kv.1 = true)
              headers !! k = None) as ->; [|reflexivity].
    apply map_lookup_filter_None. right. intros v _ Hp. simpl in Hp. congruence.
Qed.

(** X12.  The payload of a provider-extended message always has a [headers]
    mapping, empty or not; it holds the message's headers whose name
    starts with [X-] or is [Reply-To], with their values, and no
    other. *)
Theorem payload_headers_filtered (self : DjrillBackend) (m : EmailMessage)
    (p : gmap string pyval) :
  provider_extended m = true ->
  build_payload self m = ok p ->
  exists md hs,
    p !! "message" = Some (PDict md) /\
    md !! "headers" = Some (PDict hs) /\
    forall k,
      hs !! k =
      if startswith k "X-" || String.eqb k "Reply-To"
      then PStr <$> extra_headers m !! k else None.
Proof.
  intros Hm Hb.
  destruct (build_payload_keys self m p Hm Hb)
    as (md0 & md & t & o & c & _ & _ & _ & _ & Hmd & Hh & _).
  exists md, (accepted_headers_of (extra_headers m)).
  split; [exact Hmd|]. split; [exact Hh|].
  intros k. apply accepted_headers_lookup.
Qed.

Lemma provider_extended_set_global_merge_vars (m : EmailMessage)
    (g : option (gmap string pyval)) :
  provider_extended (set_global_merge_vars m g) = provider_extended m.
Proof. reflexivity. Qed.

(** X13.  From the constructor to the wire: once the caller has assigned
    [global_merge_vars], the payload of a constructed [DjrillMessage]
    carries the tags the constructor kept, in their order, the two
    tracking flags as they were given, and the display name as it was
    given ([None] when there was none). *)
Theorem constructed_message_payload (self : DjrillBackend) (host : EmailMessage)
    (fn : option string) (tgs : option (list string)) (o c : bool)
    (m : EmailMessage) (g : option (gmap string pyval)) (p : gmap string pyval) :
  DjrillMessage_init host fn tgs o c = ok m ->
  build_payload self (set_global_merge_vars m g) = ok p ->
  exists md,
    p !! "message" = Some (PDict md) /\
    md !! "tags"
    = Some (PList (PStr <$> List.filter short_tag (default [] tgs))) /\
    md !! "track_opens" = Some (PBool o) /\
    md !! "track_clicks" = Some (PBool c) /\
    md !! "from_name"
    = Some (match fn with Some n => PStr n | None => PNone end).
Proof.
  intros Hinit Hb.
  destruct (DjrillMessage_init_ok _ _ _ _ _ _ Hinit)
    as (_ & Hfn & Ht & Ho & Hc & _ & _ & _ & _ & _ & Hm).
  rewrite <- (provider_extended_set_global_merge_vars m g) in Hm.
  destruct (build_payload_keys self _ p Hm Hb)
    as (md0 & md & t' & o' & c' & Hmd0 & Ht' & Ho' & Hc' & Hmd & _ & Htags
        & Hopens & Hclicks & Hf & _).
  simpl in Ht', Ho', Hc'.
  rewrite Ht in Ht'. rewrite Ho in Ho'. rewrite Hc in Hc'.
  injection Ht' as <-. injection Ho' as <-. injection Hc' as <-.
  destruct (standard_payload_fields self (set_global_merge_vars m g))
    as (md0' & Hmd0' & _ & _ & _ & _ & _ & Hname & _).
  rewrite Hmd0 in Hmd0'. injection Hmd0' as <-.
  simpl in Hname. rewrite Hfn in Hname.
  exists md. split; [exact Hmd|]. split; [exact Htags|].
  split; [exact Hopens|]. split; [exact Hclicks|].
  rewrite Hf by discriminate. rewrite Hname. destruct fn; reflexivity.
Qed.

(** X14.  A constructed template message, once its [global_merge_vars] is
    assigned: the payload is built, it has the template's name and its
    content (empty when none was given) at the top level, and the request
    goes to the template endpoint of the configured URL. *)
Theorem constructed_template_message_dispatch (self : DjrillBackend)
    (host : EmailMessage) (tn : option string) (tc : option (list pyval))
    (fn : option string) (tgs : option (list string)) (o c : bool)
    (m : EmailMessage) (g : option (gmap string pyval)) (u : string) :
  alternatives host = None ->
  MANDRILL_API_URL settings = Some u ->
  DjrillTemplateMessage_init host tn tc fn tgs o c = ok m ->
  exists name p,
    tn = Some name /\ name <> "" /\
    build_payload self (set_global_merge_vars m g) = ok p /\
    p !! "template_name" = Some (PStr name) /\
    p !! "template_content" = Some (PList (default [] tc)) /\
    _get_target settings self (set_global_merge_vars m g)
    = ok (u ++ "messages/send-template.json").
Proof.
  intros Halt Hu Hinit.
  destruct (DjrillTemplateMessage_init_ok _ _ _ _ _ _ _ _ Hinit)
    as (Hst & Htn & Hfalsy & Htc & _ & Ha & _ & Hm).
  destruct tn as [name|]; [|discriminate].
  assert (length (default [] (alternatives (set_global_merge_vars m g))) <= 1)%nat
    as Hlen by (simpl; rewrite Ha, Halt; simpl; lia).
  destruct (build_payload_ok self (set_global_merge_vars m g) g Hm eq_refl Hlen)
    as (p & md & Hb & _ & _ & _ & _ & _ & Hpn & Hpc).
  simpl in Hpn, Hpc. rewrite Hst in Hpn, Hpc. simpl in Hpn, Hpc.
  rewrite Htn in Hpn. rewrite Htc in Hpc.
  exists name, p. split; [reflexivity|]. split.
  { intros ->. discriminate. }
  split; [exact Hb|]. split; [exact Hpn|]. split; [exact Hpc|].
  rewrite (_get_target_spec self _ u Hu). unfold target_suffix. simpl.
  rewrite Hst. reflexivity.
Qed.

(** X15.  The merge variables on the wire: for a non-empty mapping the payload
    has a list with as many entries as the mapping has variables, and
    [{name: k, content: v}] is one of them exactly when the mapping sends
    [k] to [v]. *)
Theorem payload_merge_vars_entries (self : DjrillBackend) (m : EmailMessage)
    (vars : gmap string pyval) (p : gmap string pyval) :
  provider_extended m = true ->
  global_merge_vars m = Some (Some vars) ->
  vars <> ∅ ->
  build_payload self m = ok p ->
  exists md entries,
    p !! "message" = Some (PDict md) /\
    md !! "global_merge_vars" = Some (PList entries) /\
    length entries = size vars /\
    forall k v, merge_var (k, v) ∈ entries <-> vars !! k = Some v.
Proof.
  intros Hm Hg Hne Hb.
  destruct (build_payload_extended_inv self m p Hm Hb) as (g & Hg' & Hlen).
  destruct (merge_global_merge_vars_assigned self m (Some vars) Hm Hg Hlen)
    as (p' & md & Hb' & Hmd & Hv).
  rewrite Hb in Hb'. injection Hb' as <-.
  assert (dict_nonempty vars = true) as Hnonempty.
  { unfold dict_nonempty. destruct (map_to_list vars) eqn:E; [|reflexivity].
    apply map_to_list_empty_iff in E. contradiction. }
  rewrite Hnonempty in Hv.
  exists md, (merge_var <$> map_to_list vars).
  split; [exact Hmd|]. split; [exact Hv|]. split.
  - rewrite length_fmap. apply length_map_to_list.
  - intros k v. apply merge_var_entries.
Qed.

(** *** Further properties: batches *)

Lemma send_messages_loop_app (self : DjrillBackend) (a b : list EmailMessage)
    (n : Z) (log : list Exchange) :
  send_messages_loop self (a ++ b) n log =
  match send_messages_loop self a n log with
  | (inl e, log1) => (inl e, log1)
  | (inr n1, log1) => send_messages_loop self b n1 log1
  end.
Proof.
  revert n log. induction a as [|m a IH]; intros n log; [reflexivity|].
  simpl. unfold iobind.
  destruct (_send self m log) as [[e|sent] log1]; [reflexivity|].
  apply IH.
Qed.

Lemma send_messages_loop_shift (self : DjrillBackend) (msgs : list EmailMessage)
    (n : Z) (log : list Exchange) :
  send_messages_loop self msgs n log =
  match send_messages_loop self msgs 0 log with
  | (inl e, log1) => (inl e, log1)
  | (inr r, log1) => (inr (n + r), log1)
  end.
Proof.
  revert n log. induction msgs as [|m rest IH]; intros n log; simpl.
  - unfold ret, ok. rewrite Z.add_0_r. reflexivity.
  - unfold iobind.
    destruct (_send self m log) as [[e|sent] log1]; [reflexivity|].
    rewrite (IH (if sent then n + 1 else n)).
    rewrite (IH (if sent then 0 + 1 else 0)).
    destruct (send_messages_loop self rest 0 log1) as [[e|r] log2]; [reflexivity|].
    destruct sent; f_equal; f_equal; lia.
Qed.

Lemma send_messages_nonempty (self : DjrillBackend) (msgs : list EmailMessage)
    (log : list Exchange) :
  msgs <> [] ->
  send_messages self msgs log =
  match send_messages_loop self msgs 0 log with
  | (inl e, log1) => (inl e, log1)
  | (inr r, log1) => (ok (PInt r), log1)
  end.
Proof.
  intros H. destruct msgs as [|m rest]; [congruence|].
  unfold send_messages. cbn [list_nonempty negb]. unfold iobind.
  destruct (send_messages_loop self (m :: rest) 0 log) as [[e|r] log1]; reflexivity.
Qed.

(** X3.  The first message whose [_send] raises ends the call: the error
    leaves [send_messages] with the log as that message left it, whatever
    messages follow; the exchanges of the messages before it stay made. *)
Theorem send_messages_stops_at_first_error (self : DjrillBackend)
    (before after : list EmailMessage) (m : EmailMessage)
    (log log1 log2 : list Exchange) (n : Z) (e : exn) :
  send_messages_loop self before 0 log = (ok n, log1) ->
  _send self m log1 = (raise e, log2) ->
  send_messages self (before ++ m :: after) log = (raise e, log2).
Proof.
  intros Hb Hm.
  rewrite send_messages_nonempty by (destruct before; discriminate).
  rewrite send_messages_loop_app, Hb. simpl. unfold iobind. rewrite Hm.
  reflexivity.
Qed.

(** X4.  Two batches sent one after the other in one call: the counts add up
    and the log is that of the second batch sent after the first. *)
Theorem send_messages_batches_compose (self : DjrillBackend)
    (a b : list EmailMessage) (log log1 log2 : list Exchange) (x y : Z) :
  a <> [] -> b <> [] ->
  send_messages self a log = (ok (PInt x), log1) ->
  send_messages self b log1 = (ok (PInt y), log2) ->
  send_messages self (a ++ b) log = (ok (PInt (x + y)), log2).
Proof.
  intros Ha Hb.
  rewrite (send_messages_nonempty self a log Ha).
  rewrite (send_messages_nonempty self b log1 Hb).
  rewrite send_messages_nonempty by (destruct a; [congruence|discriminate]).
  rewrite send_messages_loop_app.
  destruct (send_messages_loop self a 0 log) as [[e|r] l1]; [discriminate|].
  intros [= <- <-].
  rewrite (send_messages_loop_shift self b r l1).
  destruct (send_messages_loop self b 0 l1) as [[e|r'] l2]; [discriminate|].
  intros [= <- <-]. reflexivity.
Qed.

(** X5.  A non-empty batch in which no message has a recipient: the answer is
    the integer zero, not [None], and the transport is not called. *)
Theorem send_messages_without_recipients (self : DjrillBackend)
    (msgs : list EmailMessage) (log : list Exchange) :
  msgs <> [] ->
  Forall (fun m => recipients m = []) msgs ->
  send_messages self msgs log = (ok (PInt 0), log).
Proof.
  intros Hne Hall. rewrite (send_messages_nonempty self msgs log Hne).
  assert (send_messages_loop self msgs 0 log = (ok 0, log)) as ->; [|reflexivity].
  clear Hne. induction Hall as [|m rest Hm _ IH]; [reflexivity|].
  simpl. unfold iobind. rewrite (_send_no_recipients self m log Hm). exact IH.
Qed.

Lemma _send_exchanges (self : DjrillBackend) (m : EmailMessage)
    (log log' : list Exchange) (sent : bool) :
  _send self m log = (ok sent, log') ->
  exists new,
    log' = (log ++ new)%list /\
    confirmed new = (if sent then 1 else 0) /\
    length new = (if list_nonempty (recipients m) then 1 else 0)%nat.
Proof.
  destruct (recipients m) as [|r rs] eqn:Hr.
  - rewrite _send_no_recipients by exact Hr.
    intros [= <- <-]. exists []. rewrite app_nil_r. repeat split.
  - assert (recipients m <> []) as Hne by congruence.
    destruct (build_payload self m) as [e|payload] eqn:Hb.
    { rewrite (_send_build_error self m log e Hne Hb). discriminate. }
    destruct (_get_target settings self m) as [e|target] eqn:Ht.
    { unfold _send. rewrite Hr. simpl. unfold iobind, lift.
      rewrite Hb, Ht. discriminate. }
    rewrite (_send_posted self m log payload target Hne Hb Ht).
    destruct (status_code (server log target (json_dumps payload)) =? 200) eqn:Es.
    + intros [= <- <-]. eexists. split; [reflexivity|].
      unfold confirmed. simpl. rewrite Es. split; reflexivity.
    + destruct (fail_silently self).
      * intros [= <- <-]. eexists. split; [reflexivity|].
        unfold confirmed. simpl. rewrite Es. split; reflexivity.
      * destruct (json_loads _) as [e|data]; [discriminate|].
        destruct (getitem data "message"); discriminate.
Qed.

Lemma confirmed_bounds (new : list Exchange) :
  0 <= confirmed new <= Z.of_nat (length new).
Proof.
  unfold confirmed. split; [lia|].
  apply inj_le. induction new as [|ex new IH]; simpl; [lia|].
  destruct (status_code (ex_response ex) =? 200); simpl; lia.
Qed.

Lemma send_messages_loop_exchanges (self : DjrillBackend)
    (msgs : list EmailMessage) (n : Z) (log log' : list Exchange) (r : Z) :
  send_messages_loop self msgs n log = (ok r, log') ->
  exists new,
    log' = (log ++ new)%list /\
    r = n + confirmed new /\
    length new = with_recipients msgs.
Proof.
  revert n log. induction msgs as [|m rest IH]; intros n log; simpl.
  - intros [= <- <-]. exists []. rewrite app_nil_r.
    repeat split. unfold confirmed. simpl. lia.
  - unfold iobind at 1.
    destruct (_send self m log) as [[e|sent] log1] eqn:Hs; [discriminate|].
    intros Hrest.
    destruct (_send_exchanges self m log log1 sent Hs) as (new1 & -> & Hc1 & Hl1).
    destruct (IH _ _ Hrest) as (new2 & -> & -> & Hl2).
    exists (new1 ++ new2)%list. rewrite app_assoc. split; [reflexivity|].
    rewrite confirmed_app, Hc1, length_app, Hl1, Hl2.
    unfold with_recipients. simpl.
    destruct (list_nonempty (recipients m)); destruct sent; simpl; split; lia.
Qed.

(** X6.  Whenever [send_messages] returns from a non-empty batch, it has made
    one exchange for each message that has a recipient, it has kept the
    log it was given, and its count is the number of confirmed exchanges,
    between zero and the number of such messages. *)
Theorem send_messages_accounting (self : DjrillBackend)
    (msgs : list EmailMessage) (log log' : list Exchange) (r : pyval) :
  msgs <> [] ->
  send_messages self msgs log = (ok r, log') ->
  exists new,
    log' = (log ++ new)%list /\
    length new = with_recipients msgs /\
    r = PInt (confirmed new) /\
    0 <= confirmed new <= Z.of_nat (with_recipients msgs).
Proof.
  intros Hne. rewrite (send_messages_nonempty self msgs log Hne).
  destruct (send_messages_loop self msgs 0 log) as [[e|n] log1] eqn:Hl;
    [discriminate|].
  intros [= <- <-].
  destruct (send_messages_loop_exchanges _ _ _ _ _ _ Hl) as (new & -> & -> & Hlen).
  exists new. split; [reflexivity|]. split; [exact Hlen|].
  split; [reflexivity|]. rewrite <- Hlen. apply confirmed_bounds.
Qed.



(** *** Further properties: the answer of the transport *)

(** X8.  Without [fail_silently], the body of a refused request has to be a
    JSON object with a [message] field for the HTTP error to be raised: a
    body that does not decode raises the decoder's error, and a decoded
    object without the field raises [KeyError]. *)
Theorem error_body_without_message (self : DjrillBackend) (m : EmailMessage)
    (log : list Exchange) (payload : gmap string pyval) (target : string) :
  recipients m <> [] ->
  build_payload self m = ok payload ->
  _get_target settings self m = ok target ->
  let resp := server log target (json_dumps payload) in
  let log' := (log ++ [mkExchange target (json_dumps payload) resp])%list in
  status_code resp <> 200 ->
  fail_silently self = false ->
  (forall e, json_loads (content resp) = raise e ->
             _send self m log = (raise e, log')) /\
  (forall d, json_loads (content resp) = ok (PDict d) ->
             d !! "message" = None ->
             _send self m log = (raise (KeyError "message"), log')).
Proof.
  intros Hr Hb Ht resp log' Hs Hf.
  pose proof (_send_posted self m log payload target Hr Hb Ht) as Hsend.
  cbv zeta in Hsend. fold resp in Hsend. fold log' in Hsend.
  apply Z.eqb_neq in Hs. rewrite Hs, Hf in Hsend.
  split.
  - intros e He. rewrite Hsend, He. reflexivity.
  - intros d Hd Hnone. rewrite Hsend, Hd. simpl. rewrite Hnone. reflexivity.
Qed.

(** X9.  The [fail_silently] argument of the constructor does not reach the
    instance: a backend the constructor built raises on every refused
    request, whatever the argument was. *)
Theorem constructed_backend_never_fails_silently (fs : bool)
    (self : DjrillBackend) (m : EmailMessage) (log : list Exchange)
    (payload : gmap string pyval) (target : string) :
  DjrillBackend_init settings fs = ok self ->
  recipients m <> [] ->
  build_payload self m = ok payload ->
  _get_target settings self m = ok target ->
  status_code (server log target (json_dumps payload)) <> 200 ->
  fail_silently self = false /\
  exists e,
    _send self m log
    = (raise e,
       (log ++ [mkExchange target (json_dumps payload)
                  (server log target (json_dumps payload))])%list).
Proof.
  intros Hinit Hr Hb Ht Hs.
  destruct (DjrillBackend_init_ok _ _ _ Hinit) as (_ & Hf & _).
  split; [exact Hf|].
  pose proof (_send_posted self m log payload target Hr Hb Ht) as Hsend.
  cbv zeta in Hsend. apply Z.eqb_neq in Hs. rewrite Hs, Hf in Hsend.
  rewrite Hsend.
  destruct (json_loads _) as [e|data]; [eexists; reflexivity|].
  destruct (getitem data "message"); eexists; reflexivity.
Qed.

End Host.

(** ** The properties on the sample data *)

Lemma sample_djrill_constructed (to : list string) (alts : list (string * string)) :
  DjrillMessage_init (sample_host to alts) None None true true
  = ok (sample_djrill to alts).
Proof. reflexivity. Qed.

Lemma C1_witness :
  send_messages sample_sanitize_address sample_parseaddr sample_json_dumps
    sample_json_loads server_accepts sample_settings (sample_backend false)
    [sample_plain; sample_no_recipients] []
  = (ok (PInt 1), [sample_exchange {| status_code := 200; content := "[]" |}]).
Proof.
  apply (proj2 (proj2 (proj2
    (C1_send_messages_counts_confirmed sample_sanitize_address sample_parseaddr
       sample_json_dumps sample_json_loads server_accepts sample_settings
       (sample_backend false) [])))); reflexivity.
Defined.

Lemma C2_witness :
  _send sample_sanitize_address sample_parseaddr sample_json_dumps
    sample_json_loads server_rejects sample_settings (sample_backend false)
    sample_plain []
  = (raise (DjrillBackendHTTPError 500 (PStr "Invalid API key")),
     [sample_exchange (server_rejects [] "" "")]) /\
  _send sample_sanitize_address sample_parseaddr sample_json_dumps
    sample_json_loads server_rejects sample_settings (sample_backend true)
    sample_plain []
  = (ok false, [sample_exchange (server_rejects [] "" "")]).
Proof.
  split.
  - destruct (C2_non_200_response sample_sanitize_address sample_parseaddr
      sample_json_dumps sample_json_loads server_rejects sample_settings
      (sample_backend false) sample_plain [] _ _
      ltac:(discriminate) eq_refl eq_refl ltac:(discriminate)) as [Hraise _].
    destruct (Hraise eq_refl) as [_ Herror].
    exact (Herror _ _ eq_refl eq_refl).
  - destruct (C2_non_200_response sample_sanitize_address sample_parseaddr
      sample_json_dumps sample_json_loads server_rejects sample_settings
      (sample_backend true) sample_plain [] _ _
      ltac:(discriminate) eq_refl eq_refl ltac:(discriminate)) as [_ Hsilent].
    exact (proj1 (Hsilent eq_refl)).
Defined.

(** The claim C4 fails on a message without recipients: two alternatives,
    and [_send] raises nothing. *)
Lemma C4_counterexample_no_recipients :
  provider_extended (sample_extended [] [sample_html; sample_pdf]) = true /\
  alternatives (sample_extended [] [sample_html; sample_pdf])
  = Some [sample_html; sample_pdf] /\
  _send sample_sanitize_address sample_parseaddr sample_json_dumps
    sample_json_loads server_accepts sample_settings (sample_backend false)
    (sample_extended [] [sample_html; sample_pdf]) []
  = (ok false, []).
Proof. repeat split. Qed.

Lemma C4_witness :
  (exists e,
     _send sample_sanitize_address sample_parseaddr sample_json_dumps
       sample_json_loads server_accepts sample_settings (sample_backend false)
       (sample_extended ["to@example.com"] [sample_html; sample_pdf]) []
     = (raise e, []) /\
     is_configuration_error e = true) /\
  (exists p md,
     build_payload sample_sanitize_address sample_parseaddr (sample_backend false)
       (sample_extended ["to@example.com"] [sample_html]) = ok p /\
     p !! "message" = Some (PDict md) /\
     md !! "html" = Some (PStr "<p>Body</p>")).
Proof.
  split.
  - destruct (C4_alternatives_at_send sample_sanitize_address sample_parseaddr
      sample_json_dumps sample_json_loads server_accepts sample_settings
      (sample_backend false)
      (sample_extended ["to@example.com"] [sample_html; sample_pdf])
      (Some sample_merge_vars) []
      ltac:(discriminate) eq_refl eq_refl) as [Hmany _].
    exact (Hmany _ _ _ eq_refl).
  - destruct (C4_alternatives_at_send sample_sanitize_address sample_parseaddr
      sample_json_dumps sample_json_loads server_accepts sample_settings
      (sample_backend false)
      (sample_extended ["to@example.com"] [sample_html])
      (Some sample_merge_vars) []
      ltac:(discriminate) eq_refl eq_refl) as (_ & Hone & _).
    exact (Hone _ eq_refl).
Defined.

Lemma C5_witness :
  DjrillBackend_init sample_settings_noslash false = ok (sample_backend false) /\
  api_url (sample_backend false) = "http://mandrillapp.com/api/1.0/" /\
  _get_target sample_settings_noslash (sample_backend false) sample_plain
  = ok "http://mandrillapp.com/api/1.0messages/send.json".
Proof.
  split; [reflexivity|].
  destruct (C5_target_ignores_normalized_url sample_settings_noslash false
    (sample_backend false) sample_plain "http://mandrillapp.com/api/1.0"
    eq_refl eq_refl eq_refl) as (Hurl & _ & Htarget & _).
  split; [exact Hurl | exact Htarget].
Defined.

(** The claim C6 fails on a template message without a template name:
    the error is not the configuration error. *)
Lemma C6_counterexample_RuntimeError :
  DjrillTemplateMessage_init sample_plain None None None None true true
  = raise (RuntimeError "Template name is required") /\
  ~ (exists e,
       DjrillTemplateMessage_init sample_plain None None None None true true
       = raise e /\
       is_configuration_error e = true).
Proof.
  split; [reflexivity|].
  intros (e & He & Hc). injection He as <-. discriminate.
Qed.

Lemma C6_witness :
  exists m,
    DjrillTemplateMessage_init sample_plain (Some "welcome") None None
      (Some ["signup"]) true true = ok m /\
    template_name m = Some "welcome" /\
    template_content m = Some [] /\
    (@None (list pyval) = None -> template_content m = Some []) /\
    content_subtype m = "mandrill.template".
Proof.
  exact (C6_template_name_required sample_plain (Some "welcome") None None
           (Some ["signup"]) true true eq_refl).
Defined.

Lemma C8_witness :
  _update_mandrill_payload
    (_build_standard_payload sample_sanitize_address sample_parseaddr
       (sample_backend false) (sample_djrill ["to@example.com"] [sample_html]))
    (sample_djrill ["to@example.com"] [sample_html])
  = raise (AttributeError "global_merge_vars").
Proof.
  exact (C8_merge_fails_when_global_merge_vars_unset sample_sanitize_address
           sample_parseaddr (sample_backend false)
           (sample_host ["to@example.com"] [sample_html]) None None true true
           (sample_djrill ["to@example.com"] [sample_html]) eq_refl eq_refl).
Defined.

Lemma C9_witness :
  sample_parseaddr
    (sample_sanitize_address (from_email (sample_djrill ["to@example.com"] [])) None)
  = ("Jane Doe", "jane@example.com") /\
  exists md,
    _build_standard_payload sample_sanitize_address sample_parseaddr
      (sample_backend false) (sample_djrill ["to@example.com"] []) !! "message"
    = Some (PDict md) /\
    md !! "from_name" = Some PNone /\
    md !! "from_name" <> Some (PStr "Jane Doe").
Proof.
  split; [reflexivity|].
  exact (C9_default_from_name_is_not_the_parsed_name sample_sanitize_address
           sample_parseaddr (sample_backend false)
           (sample_host ["to@example.com"] []) None true true
           (sample_djrill ["to@example.com"] []) eq_refl).
Defined.

(** The claim C10 fails on a message without recipients: two
    alternatives, [fail_silently] set, and [_send] raises nothing. *)
Lemma C10_counterexample_no_recipients :
  fail_silently (sample_backend true) = true /\
  provider_extended (sample_extended [] [sample_html; sample_pdf]) = true /\
  (1 < length (default [] (alternatives (sample_extended [] [sample_html; sample_pdf]))))%nat /\
  _send sample_sanitize_address sample_parseaddr sample_json_dumps
    sample_json_loads server_accepts sample_settings (sample_backend true)
    (sample_extended [] [sample_html; sample_pdf]) []
  = (ok false, []).
Proof. repeat split. simpl. lia. Qed.

Lemma C10_witness :
  _send sample_sanitize_address sample_parseaddr sample_json_dumps
    sample_json_loads server_accepts sample_settings (sample_backend true)
    (sample_extended ["to@example.com"] [sample_html; sample_pdf]) []
  = (raise (ImproperlyConfigured multiple_alternatives_msg), []).
Proof.
  exact (proj1 (C10_alternatives_check_ignores_fail_silently
           sample_sanitize_address sample_parseaddr sample_json_dumps
           sample_json_loads server_accepts sample_settings (sample_backend true)
           (sample_extended ["to@example.com"] [sample_html; sample_pdf])
           (Some sample_merge_vars) [] sample_html sample_pdf []
           eq_refl ltac:(discriminate) eq_refl eq_refl eq_refl)).
Defined.

Lemma sample_template_constructed :
  DjrillTemplateMessage_init sample_template_host (Some "welcome") None None
    (Some ["signup"]) true true
  = ok sample_template.
Proof. reflexivity. Qed.

Lemma accepted_tags_valid_and_stable_witness :
  Forall (fun tag => valid_tag tag = true) ["signup"; "Signup"; "signup"] /\
  _set_mandrill_tags ["signup"; "Signup"; "signup"]
  = ok ["signup"; "Signup"; "signup"] /\
  (length ["signup"; "Signup"; "signup"]
   <= length ["signup"; sample_long_tag; "Signup"; "signup"])%nat.
Proof.
  exact (accepted_tags_valid_and_stable
           ["signup"; sample_long_tag; "Signup"; "signup"]
           ["signup"; "Signup"; "signup"] eq_refl).
Defined.

Lemma send_messages_stops_at_first_error_witness :
  send_messages sample_sanitize_address sample_parseaddr sample_json_dumps
    sample_json_loads server_accepts_once sample_settings (sample_backend false)
    [sample_plain; sample_plain; sample_plain] []
  = (raise (DjrillBackendHTTPError 500 (PStr "Invalid API key")),
     [sample_exchange {| status_code := 200; content := "[]" |};
      sample_exchange (server_rejects [] "" "")]).
Proof.
  exact (send_messages_stops_at_first_error sample_sanitize_address
           sample_parseaddr sample_json_dumps sample_json_loads
           server_accepts_once sample_settings (sample_backend false)
           [sample_plain] [sample_plain] sample_plain [] _ _ 1 _
           eq_refl eq_refl).
Defined.

Lemma send_messages_batches_compose_witness :
  send_messages sample_sanitize_address sample_parseaddr sample_json_dumps
    sample_json_loads server_accepts sample_settings (sample_backend false)
    ([sample_plain] ++ [sample_no_recipients; sample_plain]) []
  = (ok (PInt (1 + 1)),
     [sample_exchange {| status_code := 200; content := "[]" |};
      sample_exchange {| status_code := 200; content := "[]" |}]).
Proof.
  exact (send_messages_batches_compose sample_sanitize_address
           sample_parseaddr sample_json_dumps sample_json_loads
           server_accepts sample_settings (sample_backend false)
           [sample_plain] [sample_no_recipients; sample_plain] [] _ _ 1 1
           ltac:(discriminate) ltac:(discriminate) eq_refl eq_refl).
Defined.

Lemma send_messages_without_recipients_witness :
  send_messages sample_sanitize_address sample_parseaddr sample_json_dumps
    sample_json_loads server_accepts sample_settings (sample_backend false)
    [sample_no_recipients; sample_no_recipients] []
  = (ok (PInt 0), []).
Proof.
  apply send_messages_without_recipients; [discriminate|].
  repeat constructor.
Defined.

Lemma send_messages_accounting_witness :
  exists new,
    [sample_exchange {| status_code := 200; content := "[]" |};
     sample_exchange (server_rejects [] "" "")] = ([] ++ new)%list /\
    length new
    = with_recipients [sample_plain; sample_no_recipients; sample_plain] /\
    PInt 1 = PInt (confirmed new) /\
    0 <= confirmed new
    <= Z.of_nat (with_recipients [sample_plain; sample_no_recipients; sample_plain]).
Proof.
  exact (send_messages_accounting sample_sanitize_address sample_parseaddr
           sample_json_dumps sample_json_loads server_accepts_once
           sample_settings (sample_backend true)
           [sample_plain; sample_no_recipients; sample_plain] [] _ (PInt 1)
           ltac:(discriminate) eq_refl).
Defined.


Lemma error_body_without_message_witness :
  _send sample_sanitize_address sample_parseaddr sample_json_dumps
    (fun _ => raise (ValueError "No JSON object could be decoded"))
    server_rejects sample_settings (sample_backend false) sample_plain []
  = (raise (ValueError "No JSON object could be decoded"),
     [sample_exchange (server_rejects [] "" "")]) /\
  _send sample_sanitize_address sample_parseaddr sample_json_dumps
    (fun _ => ok (PDict ∅))
    server_rejects sample_settings (sample_backend false) sample_plain []
  = (raise (KeyError "message"), [sample_exchange (server_rejects [] "" "")]).
Proof.
  split.
  - destruct (error_body_without_message sample_sanitize_address
      sample_parseaddr sample_json_dumps
      (fun _ => raise (ValueError "No JSON object could be decoded"))
      server_rejects sample_settings (sample_backend false) sample_plain [] _ _
      ltac:(discriminate) eq_refl eq_refl ltac:(discriminate) eq_refl)
      as [Hdecode _].
    exact (Hdecode _ eq_refl).
  - destruct (error_body_without_message sample_sanitize_address
      sample_parseaddr sample_json_dumps (fun _ => ok (PDict ∅))
      server_rejects sample_settings (sample_backend false) sample_plain [] _ _
      ltac:(discriminate) eq_refl eq_refl ltac:(discriminate) eq_refl)
      as [_ Hfield].
    exact (Hfield _ eq_refl eq_refl).
Defined.

Lemma constructed_backend_never_fails_silently_witness :
  fail_silently (sample_backend false) = false /\
  exists e,
    _send sample_sanitize_address sample_parseaddr sample_json_dumps
      sample_json_loads server_rejects sample_settings (sample_backend false)
      sample_plain []
    = (raise e, [sample_exchange (server_rejects [] "" "")]).
Proof.
  exact (constructed_backend_never_fails_silently sample_sanitize_address
           sample_parseaddr sample_json_dumps sample_json_loads server_rejects
           sample_settings true (sample_backend false) sample_plain [] _ _
           eq_refl ltac:(discriminate) eq_refl eq_refl ltac:(discriminate)).
Defined.

Lemma plain_message_payload_keys_witness :
  alternatives sample_plain_html = Some [sample_html] /\
  exists p md,
    build_payload sample_sanitize_address sample_parseaddr (sample_backend false)
      sample_plain_html = ok p /\
    dom p = ({["key"; "message"]} : gset string) /\
    p !! "message" = Some (PDict md) /\
    dom md = ({["text"; "subject"; "from_email"; "from_name"; "to"]} : gset string) /\
    md !! "html" = None /\ md !! "headers" = None.
Proof.
  split; [reflexivity|].
  exact (plain_message_payload_keys sample_sanitize_address sample_parseaddr
           (sample_backend false) sample_plain_html eq_refl).
Defined.

Lemma built_payload_standard_fields_witness :
  exists p md,
    build_payload sample_sanitize_address sample_parseaddr (sample_backend false)
      (sample_extended ["to@example.com"; "to@example.com"] [sample_html]) = ok p /\
    p !! "message" = Some (PDict md) /\
    p !! "key" = Some (PStr "secret-key") /\
    md !! "text" = Some (PStr "Body") /\
    md !! "subject" = Some (PStr "Subject") /\
    md !! "from_email" = Some (PStr "jane@example.com") /\
    md !! "to"
    = Some (PList (to_entries sample_sanitize_address sample_parseaddr
                     (sample_extended ["to@example.com"; "to@example.com"]
                        [sample_html]))) /\
    length (to_entries sample_sanitize_address sample_parseaddr
              (sample_extended ["to@example.com"; "to@example.com"] [sample_html]))
    = 2%nat.
Proof.
  eexists. 
  destruct (built_payload_standard_fields sample_sanitize_address
    sample_parseaddr (sample_backend false)
    (sample_extended ["to@example.com"; "to@example.com"] [sample_html]) _
    (or_introl eq_refl) eq_refl) as (md & H).
  exists md. split; [reflexivity|]. exact H.
Defined.

Lemma payload_headers_filtered_witness :
  exists p md hs,
    build_payload sample_sanitize_address sample_parseaddr (sample_backend false)
      (set_global_merge_vars sample_template None) = ok p /\
    p !! "message" = Some (PDict md) /\
    md !! "headers" = Some (PDict hs) /\
    hs !! "X-Custom" = Some (PStr "1") /\
    hs !! "Reply-To" = Some (PStr "a@b.com") /\
    hs !! "Cc" = None.
Proof.
  eexists.
  destruct (payload_headers_filtered sample_sanitize_address sample_parseaddr
    (sample_backend false) (set_global_merge_vars sample_template None) _
    eq_refl eq_refl) as (md & hs & Hmd & Hhs & Hk).
  exists md, hs. split; [reflexivity|]. split; [exact Hmd|].
  split; [exact Hhs|].
  split; [exact (Hk "X-Custom")|]. split; [exact (Hk "Reply-To")|exact (Hk "Cc")].
Defined.

Lemma constructed_message_payload_witness :
  exists p md,
    build_payload sample_sanitize_address sample_parseaddr (sample_backend false)
      (set_global_merge_vars
         {| subject := "Subject";
            body := "Body";
            from_email := "Jane Doe <jane@example.com>";
            recipients := ["to@example.com"];
            encoding := None;
            extra_headers := ∅;
            content_subtype := "mandrill";
            alternatives := Some [sample_html];
            from_name := Some (Some "Jane");
            tags := Some ["signup"; "welcome"];
            track_opens := Some false;
            track_clicks := Some true;
            global_merge_vars := None;
            template_name := None;
            template_content := None |} None) = ok p /\
    p !! "message" = Some (PDict md) /\
    md !! "tags" = Some (PList [PStr "signup"; PStr "welcome"]) /\
    md !! "track_opens" = Some (PBool false) /\
    md !! "track_clicks" = Some (PBool true) /\
    md !! "from_name" = Some (PStr "Jane").
Proof.
  eexists.
  destruct (constructed_message_payload sample_sanitize_address sample_parseaddr
    (sample_backend false) (sample_host ["to@example.com"] [sample_html])
    (Some "Jane") (Some ["signup"; sample_long_tag; "welcome"]) false true
    _ None _ eq_refl eq_refl) as (md & H).
  exists md. split; [reflexivity|]. exact H.
Defined.

Lemma constructed_template_message_dispatch_witness :
  exists name p,
    Some "welcome" = Some name /\ name <> "" /\
    build_payload sample_sanitize_address sample_parseaddr (sample_backend false)
      (set_global_merge_vars sample_template (Some sample_merge_vars)) = ok p /\
    p !! "template_name" = Some (PStr name) /\
    p !! "template_content" = Some (PList []) /\
    _get_target sample_settings (sample_backend false)
      (set_global_merge_vars sample_template (Some sample_merge_vars))
    = ok "http://mandrillapp.com/api/1.0/messages/send-template.json".
Proof.
  exact (constructed_template_message_dispatch sample_sanitize_address
           sample_parseaddr sample_settings (sample_backend false)
           sample_template_host (Some "welcome") None None (Some ["signup"])
           true true sample_template (Some sample_merge_vars)
           "http://mandrillapp.com/api/1.0/" eq_refl eq_refl eq_refl).
Defined.

Lemma payload_merge_vars_entries_witness :
  exists p md entries,
    build_payload sample_sanitize_address sample_parseaddr (sample_backend false)
      (sample_extended ["to@example.com"] [sample_html]) = ok p /\
    p !! "message" = Some (PDict md) /\
    md !! "global_merge_vars" = Some (PList entries) /\
    length entries = size sample_merge_vars /\
    merge_var ("FNAME", PStr "Jane") ∈ entries.
Proof.
  eexists.
  destruct (payload_merge_vars_entries sample_sanitize_address sample_parseaddr
    (sample_backend false) (sample_extended ["to@example.com"] [sample_html])
    sample_merge_vars _ eq_refl eq_refl (insert_non_empty _ _ _) eq_refl)
    as (md & entries & Hmd & Hv & Hlen & Hin).
  exists md, entries. split; [reflexivity|]. split; [exact Hmd|].
  split; [exact Hv|]. split; [exact Hlen|].
  apply Hin. reflexivity.
Defined.
